(** * Robotic arm orientation: homogeneous transformation matrices

    A shallow embedding of [robotic_arm_orientation.py]: the two classes
    [HTM] and [CalculatedHTM], the helper [printFrameList] and the chain
    assembled by [main].

    Numbers.  Python's [int] and [float] entries are embedded as the real
    numbers of the Standard Library ([R]); [math.cos], [math.sin] and
    [math.radians] are the real cosine, sine and the factor [PI / 180];
    [round(x, 5)] is decimal rounding to five places, ties to even.
    Binary floating point error is therefore not part of the model.

    Strings.  Axis codes and object names are ASCII strings; [str.upper]
    maps [a]..[z] to [A]..[Z] and leaves every other character alone.

    Effects.  A constructor call either returns an object or raises, and
    it may print: computations live in the small monad [py] below. *)

From Stdlib Require Import Reals Rtrigo_facts Lra Lia ZArith Bool List String Ascii.
Import ListNotations.

Local Open Scope R_scope.

(** ** Printing and exceptions *)

Inductive exn : Type :=
| TypeError
| ValueError
| AttributeError.

Inductive outcome (A : Type) : Type :=
| Returned (a : A)
| Raised (e : exn).
Arguments Returned {A} a.
Arguments Raised {A} e.

(** The result of running a piece of Python: what it evaluated to (or the
    exception that escaped) and the lines it passed to [print], in order. *)
Record py (A : Type) : Type := Run { result : outcome A; printed : list string }.
Arguments Run {A} result printed.
Arguments result {A} _.
Arguments printed {A} _.

Definition ret {A : Type} (a : A) : py A := Run (Returned a) [].

Definition raise {A : Type} (e : exn) : py A := Run (Raised e) [].

Definition print (line : string) : py unit := Run (Returned tt) [line].

Definition bind {A B : Type} (m : py A) (f : A -> py B) : py B :=
  match result m with
  | Returned a => let r := f a in Run (result r) (printed m ++ printed r)
  | Raised e => Run (Raised e) (printed m)
  end.

Declare Scope py_scope.
Delimit Scope py_scope with py.
Notation "x <- m ;; k" := (bind m (fun x => k))
  (at level 61, m at next level, right associativity) : py_scope.
Notation "m ;; k" := (bind m (fun _ => k))
  (at level 61, right associativity) : py_scope.

(** ** Numeric primitives *)

(** Nearest integer, ties to the even neighbour. *)
Definition round_half_even (x : R) : Z :=
  let f := Zfloor x in
  let d := x - IZR f in
  if Rlt_dec d (1 / 2) then f
  else if Rlt_dec (1 / 2) d then (f + 1)%Z
  else if Z.even f then f else (f + 1)%Z.

(** [round(x, 5)] *)
Definition round5 (x : R) : R := IZR (round_half_even (x * 100000)) / 100000.

(** [math.radians] *)
Definition radians (deg : R) : R := deg * PI / 180.

(** [math.cos] and [math.sin] applied to an attribute that may hold [None]:
    the C implementation rejects [None] with [TypeError]. *)
Definition math_cos (x : option R) : py R :=
  match x with
  | Some t => ret (cos t)
  | None => raise TypeError
  end.

Definition math_sin (x : option R) : py R :=
  match x with
  | Some t => ret (sin t)
  | None => raise TypeError
  end.

(** ** Strings *)

Definition upper_char (c : ascii) : ascii :=
  let n := nat_of_ascii c in
  if ((97 <=? n)%nat && (n <=? 122)%nat)%bool then ascii_of_nat (n - 32) else c.

(** [str.upper] *)
Fixpoint upper (s : string) : string :=
  match s with
  | EmptyString => EmptyString
  | String c rest => String (upper_char c) (upper rest)
  end.

(** ** Matrices *)

(** A matrix as the program writes it: a list of rows. *)
Definition matrix : Type := list (list R).

(** [m[i][j]]; the default is never reached on indices inside the shape. *)
Definition entry (m : matrix) (i j : nat) : R := nth j (nth i m []) 0.

(** ** class HTM *)

Module HTM.

(** The attributes of an [HTM] instance.  [mat] is [None] when the
    attribute was never assigned. *)
Record t : Type := Build {
  objName : string;
  matrixType : string;
  segL : R;
  theta : option R;
  mat : option matrix
}.

(** [round(math.cos(self.theta), 5)] and its two siblings. *)
Definition round_cos (th : option R) : py R :=
  (x <- math_cos th ;; ret (round5 x))%py.

Definition round_sin (th : option R) : py R :=
  (x <- math_sin th ;; ret (round5 x))%py.

Definition round_neg_sin (th : option R) : py R :=
  (x <- math_sin th ;; ret (round5 (- x)))%py.

(** [HTM.__init__]: the entries are evaluated in source order, row by
    row, so a missing angle raises at the first trigonometric call. *)
Definition __init__ (objName matrixType : string) (segmentLength : R)
    (theta : option R) : py t :=
  let self_matrixType := upper matrixType in
  let self_segL := segmentLength in
  let self_theta :=
    match theta with
    | Some th => Some (radians th)
    | None => None
    end in
  let self_with (m : option matrix) :=
    Build objName self_matrixType self_segL self_theta m in
  (if String.eqb self_matrixType "X" then
     c1 <- round_cos self_theta ;;
     ns <- round_neg_sin self_theta ;;
     s <- round_sin self_theta ;;
     c2 <- round_cos self_theta ;;
     ret (self_with (Some [ [1; 0; 0; self_segL];
                            [0; c1; ns; 0];
                            [0; s; c2; 0];
                            [0; 0; 0; 1] ]))
   else if String.eqb self_matrixType "Y" then
     c1 <- round_cos self_theta ;;
     s1 <- round_sin self_theta ;;
     c2 <- round_cos self_theta ;;
     ns <- round_neg_sin self_theta ;;
     c3 <- round_cos self_theta ;;
     s2 <- round_sin self_theta ;;
     ret (self_with (Some [ [c1; 0; s1; self_segL * c2];
                            [0; 1; 0; 0];
                            [ns; 0; c3; self_segL * s2];
                            [0; 0; 0; 1] ]))
   else if String.eqb self_matrixType "Z" then
     c1 <- round_cos self_theta ;;
     ns <- round_neg_sin self_theta ;;
     c2 <- round_cos self_theta ;;
     s1 <- round_sin self_theta ;;
     c3 <- round_cos self_theta ;;
     s2 <- round_sin self_theta ;;
     ret (self_with (Some [ [c1; ns; 0; self_segL * c2];
                            [s1; c3; 0; self_segL * s2];
                            [0; 0; 1; 0];
                            [0; 0; 0; 1] ]))
   else if (String.eqb self_matrixType "I"
            && match self_theta with None => true | Some _ => false end)%bool then
     ret (self_with (Some [ [1; 0; 0; self_segL];
                            [0; 1; 0; 0];
                            [0; 0; 1; 0];
                            [0; 0; 0; 1] ]))
   else
     print (String "010" "Something went wrong in the definition of " ++ objName) ;;
     ret (self_with None))%py.

(** Reading [self.mat]: an instance without the attribute raises
    [AttributeError]. *)
Definition get_mat (self : t) : py matrix :=
  match mat self with
  | Some m => ret m
  | None => raise AttributeError
  end.

End HTM.

(** ** numpy.dot on two-dimensional operands *)

(** The shape [(rows, columns)] of a nested list that numpy reads as a
    two-dimensional array: at least one row, all rows of one length. *)
Definition shape (m : matrix) : option (nat * nat) :=
  match m with
  | [] => None
  | row :: rows =>
      if forallb (fun r => (List.length r =? List.length row)%nat) rows
      then Some (List.length m, List.length row)
      else None
  end.

(** Inner product of a row with a column. *)
Fixpoint inner (u v : list R) : R :=
  match u, v with
  | x :: u', y :: v' => x * y + inner u' v'
  | _, _ => 0
  end.

(** Column [j] of a matrix. *)
Definition column (m : matrix) (j : nat) : list R :=
  map (fun row => nth j row 0) m.

Definition columns (m : matrix) (width : nat) : list (list R) :=
  map (column m) (seq 0 width).

(** [np.dot(a, b)] for two-dimensional [a] and [b]: the last axis of [a]
    is summed against the first axis of [b]; operands whose axes do not
    align raise [ValueError].  The model covers two-dimensional operands
    only; it also answers [ValueError] on a nested list that is ragged
    (numpy refuses to build the array) and on the empty list (which numpy
    reads as a one-dimensional array, a case this embedding does not
    represent and no statement below relies on). *)
Definition np_dot (a b : matrix) : py matrix :=
  match shape a, shape b with
  | Some (_, k), Some (k', width) =>
      if (k =? k')%nat
      then ret (map (fun row => map (inner row) (columns b width)) a)
      else raise ValueError
  | _, _ => raise ValueError
  end.

(** ** class CalculatedHTM *)

Module CalculatedHTM.

Record t : Type := Build {
  objName : string;
  r1 : matrix;
  r2 : matrix;
  mat : matrix
}.

(** [CalculatedHTM.__init__] *)
Definition __init__ (objName : string) (r1 r2 : matrix) : py t :=
  (m <- np_dot r1 r2 ;;
   ret (Build objName r1 r2 m))%py.

End CalculatedHTM.

(** ** Frames and the chain built by main *)

(** [frameList] holds instances of both classes. *)
Inductive frame : Type :=
| Elementary (h : HTM.t)
| Calculated (c : CalculatedHTM.t).

Definition frame_objName (f : frame) : string :=
  match f with
  | Elementary h => HTM.objName h
  | Calculated c => CalculatedHTM.objName c
  end.

(** [f.mat] *)
Definition frame_mat (f : frame) : py matrix :=
  match f with
  | Elementary h => HTM.get_mat h
  | Calculated c => ret (CalculatedHTM.mat c)
  end.

(** [s[:-2]] *)
Definition drop_last_two (s : string) : string :=
  substring 0 (String.length s - 2) s.

(** [printFrameList] *)
Definition printFrameList (frameList : list frame) : py unit :=
  let frameStr :=
    fold_left (fun acc i => acc ++ frame_objName i ++ ", ")%string
              frameList "Frame List: "%string in
  print (drop_last_two frameStr ++ String "010" "").

(** [list.append]: the new element goes after all the old ones. *)
Definition append (frameList : list frame) (f : frame) : list frame :=
  frameList ++ [f].

(** [main], up to the hand-over to the plotting routine: the value is the
    [frameList] passed to [graph_frames] (the rendering itself is outside
    this development). *)
Definition main : py (list frame) :=
  (let frameList := [] in
   R_00 <- HTM.__init__ "R_00" "i" 0 None ;;
   let frameList := append frameList (Elementary R_00) in
   T_01 <- HTM.__init__ "T_01" "z" 5 (Some 150) ;;
   let frameList := append frameList (Elementary T_01) in
   T_12 <- HTM.__init__ "T_12" "y" 4 (Some 100) ;;
   T_23 <- HTM.__init__ "T_23" "z" 3 (Some (-90)) ;;
   T_34 <- HTM.__init__ "T_34" "z" 3 (Some (-60)) ;;
   T_45 <- HTM.__init__ "T_34" "x" (3 / 2) (Some 90) ;;
   T_01_mat <- HTM.get_mat T_01 ;;
   T_12_mat <- HTM.get_mat T_12 ;;
   T_02 <- CalculatedHTM.__init__ "T_02" T_01_mat T_12_mat ;;
   let frameList := append frameList (Calculated T_02) in
   T_23_mat <- HTM.get_mat T_23 ;;
   T_03 <- CalculatedHTM.__init__ "T_03" (CalculatedHTM.mat T_02) T_23_mat ;;
   let frameList := append frameList (Calculated T_03) in
   T_34_mat <- HTM.get_mat T_34 ;;
   T_04 <- CalculatedHTM.__init__ "T_04" (CalculatedHTM.mat T_03) T_34_mat ;;
   let frameList := append frameList (Calculated T_04) in
   T_45_mat <- HTM.get_mat T_45 ;;
   T_05 <- CalculatedHTM.__init__ "T_05" (CalculatedHTM.mat T_04) T_45_mat ;;
   let frameList := append frameList (Calculated T_05) in
   printFrameList frameList ;;
   ret frameList)%py.

(** ** Vocabulary of the specification *)

(** The product of two 4x4 matrices in the specification's words: entry
    [(i, j)] is row [i] of the left operand times column [j] of the right
    operand.  Kept apart from [np_dot] to be compared with it. *)
Definition row_by_column (a b : matrix) (i j : nat) : R :=
  entry a i 0 * entry b 0 j + entry a i 1 * entry b 1 j
  + entry a i 2 * entry b 2 j + entry a i 3 * entry b 3 j.

Definition matrix_product_4x4 (a b : matrix) : matrix :=
  map (fun i => map (row_by_column a b i) (seq 0 4)) (seq 0 4).

(** The same for operands of any aligned shapes: the sum over the [k]
    positions of row [i] and column [j]. *)
Fixpoint sum_upto (k : nat) (f : nat -> R) : R :=
  match k with
  | O => 0
  | S k' => sum_upto k' f + f k'
  end.

Definition row_times_column (a b : matrix) (k i j : nat) : R :=
  sum_upto k (fun t => entry a i t * entry b t j).

(** The product the specification rules out. *)
Definition elementwise_product (a b : matrix) : matrix :=
  map (fun rows => map (fun xy => fst xy * snd xy) (combine (fst rows) (snd rows)))
      (combine a b).

Definition identity4 : matrix :=
  [ [1; 0; 0; 0]; [0; 1; 0; 0]; [0; 0; 1; 0]; [0; 0; 0; 1] ].

Definition identity3 : matrix :=
  [ [1; 0; 0]; [0; 1; 0]; [0; 0; 1] ].

(** Top-left 3x3 block and translation column of a 4x4 matrix. *)
Definition rotation_block (m : matrix) : matrix := map (firstn 3) (firstn 3 m).

Definition translation_column (m : matrix) : list R := firstn 3 (column m 3).

Definition bottom_row (m : matrix) : list R := nth 3 m [].

(** Entry [(i, j)] of the Gram matrix (transpose times itself) of a 3x3 block. *)
Definition gram (r : matrix) (i j : nat) : R :=
  entry r 0 i * entry r 0 j + entry r 1 i * entry r 1 j + entry r 2 i * entry r 2 j.

Definition kronecker (i j : nat) : R := if (i =? j)%nat then 1 else 0.

Definition det3 (r : matrix) : R :=
  entry r 0 0 * (entry r 1 1 * entry r 2 2 - entry r 1 2 * entry r 2 1)
  - entry r 0 1 * (entry r 1 0 * entry r 2 2 - entry r 1 2 * entry r 2 0)
  + entry r 0 2 * (entry r 1 0 * entry r 2 1 - entry r 1 1 * entry r 2 0).

(** Orthonormal columns up to [eps] in every entry of the Gram matrix. *)
Definition orthonormal_within (eps : R) (r : matrix) : Prop :=
  forall i j, (i < 3)%nat -> (j < 3)%nat -> Rabs (gram r i j - kronecker i j) <= eps.

(** A homogeneous transform, valid up to [eps]: a 4x4 matrix whose bottom
    row is [0, 0, 0, 1] and whose rotation block is orthonormal with
    determinant one, both up to [eps]. *)
Definition valid_within (eps : R) (m : matrix) : Prop :=
  shape m = Some (4, 4)%nat
  /\ bottom_row m = [0; 0; 0; 1]
  /\ orthonormal_within eps (rotation_block m)
  /\ Rabs (det3 (rotation_block m) - 1) <= eps.

(** The specification's rounding tolerance, 1e-4. *)
Definition tolerance : R := 1 / 10000.

(** Two matrices of one shape whose entries differ by at most [eps]. *)
Definition close_within (eps : R) (a b : matrix) : Prop :=
  shape a = shape b
  /\ forall i j, Rabs (entry a i j - entry b i j) <= eps.

(** A joint specification the documentation of [HTM] allows: a rotation
    code with an angle, or the identity code without one. *)
Definition rotation_code (code : string) : bool :=
  (String.eqb (upper code) "X" || String.eqb (upper code) "Y"
   || String.eqb (upper code) "Z")%bool.

Definition identity_code (code : string) : bool := String.eqb (upper code) "I".

Definition valid_spec (code : string) (theta : option R) : bool :=
  match theta with
  | Some _ => rotation_code code
  | None => identity_code code
  end.

(** The diagnostic line of the fall-through branch. *)
Definition diagnostic (objName : string) : string :=
  (String "010" "Something went wrong in the definition of " ++ objName)%string.

(** ** print_mat *)

Section Printing.

(** How Python renders a list of numbers ([str] of a row) and a numpy
    array ([str] of the composed matrix) is left open: the two renderers
    are parameters of the printing methods. *)
Variable str_row : list R -> string.
Variable str_array : matrix -> string.

(** [HTM.print_mat]: the header goes out before [self.mat] is read; the
    rows are then printed in one call, separated by newlines. *)
Definition HTM_print_mat (self : HTM.t) : py unit :=
  (print ("Printing: " ++ HTM.objName self)%string ;;
   m <- HTM.get_mat self ;;
   print (String.concat (String "010" "") (map str_row m)) ;;
   print (String "010" ""))%py.

(** [CalculatedHTM.print_mat] *)
Definition CalculatedHTM_print_mat (self : CalculatedHTM.t) : py unit :=
  (print ("Printing: " ++ CalculatedHTM.objName self)%string ;;
   print (str_array (CalculatedHTM.mat self)) ;;
   print (String "010" ""))%py.

End Printing.

(** ** graph_frames *)

(** Subscripting can fail where the constructors cannot: an index out of
    range is carried beside the value. *)
Inductive lookup (A : Type) : Type :=
| Found (a : A)
| IndexError.
Arguments Found {A} a.
Arguments IndexError {A}.

(** [l[i]] for a literal, non-negative [i]. *)
Definition index {A : Type} (l : list A) (i : nat) : lookup A :=
  match nth_error l i with
  | Some a => Found a
  | None => IndexError
  end.

(** Computations of the plotting routine: they may raise like any other,
    or run into an index out of range. *)
Definition plot (A : Type) : Type := py (lookup A).

Definition plot_ret {A : Type} (a : A) : plot A := ret (Found a).

Definition plot_bind {A B : Type} (m : plot A) (f : A -> plot B) : plot B :=
  bind m (fun r => match r with
                   | Found a => f a
                   | IndexError => ret IndexError
                   end).

Declare Scope plot_scope.
Delimit Scope plot_scope with plot.
Notation "x <- m ;; k" := (plot_bind m (fun x => k))
  (at level 61, m at next level, right associativity) : plot_scope.

(** [R[i].mat[r][c]]; the list the source calls [R] is [frames] here. *)
Definition cell (frames : list frame) (i r c : nat) : plot R :=
  (f <- ret (index frames i) ;;
   m <- bind (frame_mat f) plot_ret ;;
   row <- ret (index m r) ;;
   ret (index row c))%plot.

(** One dictionary of [datasets]. *)
Record dataset : Type := Dataset {
  ds_x : list R;
  ds_y : list R;
  ds_z : list R;
  ds_color : string;
  ds_lw : R
}.

(** What the first loop accumulates. *)
Record scene : Type := Scene {
  datasets : list dataset;
  xLoc : list R;
  yLoc : list R;
  zLoc : list R
}.

(** The dictionary appended for the axis stored in column [k] of frame
    [i]: from the frame's origin to the origin plus that column. *)
Definition axis_segment (frames : list frame) (i k : nat) (color : string)
    (thickness : R) : plot dataset :=
  (x0 <- cell frames i 0 3 ;; xk <- cell frames i 0 k ;; x1 <- cell frames i 0 3 ;;
   y0 <- cell frames i 1 3 ;; yk <- cell frames i 1 k ;; y1 <- cell frames i 1 3 ;;
   z0 <- cell frames i 2 3 ;; zk <- cell frames i 2 k ;; z1 <- cell frames i 2 3 ;;
   plot_ret (Dataset [x0; xk + x1] [y0; yk + y1] [z0; zk + z1] color thickness))%plot.

(** The dictionary appended for the arm segment from frame [i - 1] to
    frame [i]. *)
Definition link_segment (frames : list frame) (i : nat) : plot dataset :=
  (xp <- cell frames (i - 1) 0 3 ;; x <- cell frames i 0 3 ;;
   yp <- cell frames (i - 1) 1 3 ;; y <- cell frames i 1 3 ;;
   zp <- cell frames (i - 1) 2 3 ;; z <- cell frames i 2 3 ;;
   plot_ret (Dataset [xp; x] [yp; y] [zp; z] "black" (5 / 2)))%plot.

(** The body of the loop over [range(len(R))]. *)
Definition loop_body (frames : list frame) (i : nat) (st : scene) : plot scene :=
  let thickness := if (i =? 0)%nat then 2 else 1 in
  (dx <- axis_segment frames i 0 "red" thickness ;;
   dy <- axis_segment frames i 1 "blue" thickness ;;
   dz <- axis_segment frames i 2 "green" thickness ;;
   x <- cell frames i 0 3 ;;
   y <- cell frames i 1 3 ;;
   z <- cell frames i 2 3 ;;
   let axes := datasets st ++ [dx] ++ [dy] ++ [dz] in
   if (0 <? i)%nat then
     link <- link_segment frames i ;;
     plot_ret (Scene (axes ++ [link]) (xLoc st ++ [x]) (yLoc st ++ [y])
                     (zLoc st ++ [z]))
   else
     plot_ret (Scene axes (xLoc st ++ [x]) (yLoc st ++ [y]) (zLoc st ++ [z])))%plot.

Fixpoint loop (frames : list frame) (indices : list nat) (st : scene) : plot scene :=
  match indices with
  | [] => plot_ret st
  | i :: rest => (st' <- loop_body frames i st ;; loop frames rest st')%plot
  end.

(** The first loop of [graph_frames], from empty lists. *)
Definition collect (frames : list frame) : plot scene :=
  loop frames (seq 0 (List.length frames)) (Scene [] [] [] []).

(** The calls made on the figure and its axes, in order. *)
Inductive draw : Type :=
| Figure (num : string)
| AddSubplot (position : nat) (projection : string)
| SetXlim (low high : R)
| SetYlim (low high : R)
| SetZlim (low high : R)
| PlotLine (x y z : list R) (color : string) (linewidth : R)
| Scatter (x y z : list R) (color : string) (s : R)
| Suptitle (text : string) (fontsize : R)
| SetXlabel (text : string)
| SetYlabel (text : string)
| SetZlabel (text : string)
| Show.

(** The second loop: a line and the joint markers for every dataset. *)
Definition draw_scene (st : scene) : list draw :=
  flat_map (fun d => [ PlotLine (ds_x d) (ds_y d) (ds_z d) (ds_color d) (ds_lw d);
                      Scatter (xLoc st) (yLoc st) (zLoc st) "orange" 9 ])
           (datasets st).

Definition setup_calls : list draw :=
  [ Figure "Robotic Arm Orientation"; AddSubplot 111 "3d";
    SetXlim (-10) 10; SetYlim (-10) 10; SetZlim (-10) 10 ].

Definition closing_calls : list draw :=
  [ Suptitle "Robotic Arm Orientation" 14; SetXlabel "X Direction";
    SetYlabel "Y Direction"; SetZlabel "Z Direction"; Show ].

(** [graph_frames]: the calls made on matplotlib (assumed not to fail) and
    how the routine ends.  When the first loop fails only the set-up
    calls have been made. *)
Definition graph_frames (frames : list frame) : list draw * plot unit :=
  let collected := collect frames in
  match result collected with
  | Returned (Found st) =>
      (setup_calls ++ draw_scene st ++ closing_calls,
       Run (Returned (Found tt)) (printed collected))
  | Returned IndexError =>
      (setup_calls, Run (Returned IndexError) (printed collected))
  | Raised e => (setup_calls, Run (Raised e) (printed collected))
  end.

(** [main] to its end: the frames are assembled, listed and plotted. *)
Definition main_and_plot : list draw * plot unit :=
  match result main with
  | Returned frameList =>
      let plotted := graph_frames frameList in
      (fst plotted,
       Run (result (snd plotted)) (printed main ++ printed (snd plotted)))
  | Raised e => ([], Run (Raised e) (printed main))
  end.

(** ** Vocabulary of the further properties *)

(** A matrix whose first three rows hold at least four entries each: all
    that the plotting routine reads. *)
Definition readable (m : matrix) : Prop :=
  forall r, (r < 3)%nat -> exists row, nth_error m r = Some row /\ (4 <= List.length row)%nat.

(** The three axis dictionaries of a matrix, and the segment between two
    origins, written with total entries. *)
Definition axis_of (m : matrix) (k : nat) (color : string) (thickness : R) : dataset :=
  Dataset [entry m 0 3; entry m 0 k + entry m 0 3]
          [entry m 1 3; entry m 1 k + entry m 1 3]
          [entry m 2 3; entry m 2 k + entry m 2 3] color thickness.

Definition axes_of (m : matrix) (thickness : R) : list dataset :=
  [ axis_of m 0 "red" thickness; axis_of m 1 "blue" thickness;
    axis_of m 2 "green" thickness ].

Definition link_of (p m : matrix) : dataset :=
  Dataset [entry p 0 3; entry m 0 3] [entry p 1 3; entry m 1 3]
          [entry p 2 3; entry m 2 3] "black" (5 / 2).

(** The datasets of a chain of matrices: the axes of each, and after the
    first a link back to its predecessor. *)
Fixpoint chain_datasets (p : matrix) (ms : list matrix) : list dataset :=
  match ms with
  | [] => []
  | m :: rest => axes_of m 1 ++ [link_of p m] ++ chain_datasets m rest
  end.

Definition all_datasets (ms : list matrix) : list dataset :=
  match ms with
  | [] => []
  | m :: rest => axes_of m 2 ++ chain_datasets m rest
  end.

Definition scene_of (ms : list matrix) : scene :=
  Scene (all_datasets ms)
        (map (fun m => entry m 0 3) ms)
        (map (fun m => entry m 1 3) ms)
        (map (fun m => entry m 2 3) ms).

(** Squared length of the segment a dataset draws. *)
Definition squared_length (d : dataset) : R :=
  let dx := nth 1 (ds_x d) 0 - nth 0 (ds_x d) 0 in
  let dy := nth 1 (ds_y d) 0 - nth 0 (ds_y d) 0 in
  let dz := nth 1 (ds_z d) 0 - nth 0 (ds_z d) 0 in
  dx * dx + dy * dy + dz * dz.

(** Sum of the squares of a vector's entries. *)
Fixpoint squared_norm (v : list R) : R :=
  match v with
  | [] => 0
  | x :: rest => x * x + squared_norm rest
  end.

(** Transpose of a 3x3 block. *)
Definition transpose3 (r : matrix) : matrix :=
  map (fun j => map (fun i => entry r i j) (seq 0 3)) (seq 0 3).

(** The scene reached from [st] after the matrices [ms], [prev] being the
    matrix visited just before them (none at the start of the list). *)
Fixpoint scene_after (st : scene) (prev : option matrix) (ms : list matrix) : scene :=
  match ms with
  | [] => st
  | m :: rest =>
      let axes := axes_of m (match prev with None => 2 | Some _ => 1 end) in
      let link := match prev with None => [] | Some p => [link_of p m] end in
      scene_after (Scene (datasets st ++ axes ++ link)
                         (xLoc st ++ [entry m 0 3])
                         (yLoc st ++ [entry m 1 3])
                         (zLoc st ++ [entry m 2 3]))
                  (Some m) rest
  end.

(** [m[r][c]] on a matrix already in hand. *)
Definition item (m : matrix) (r c : nat) : lookup R :=
  match index m r with
  | Found row => index row c
  | IndexError => IndexError
  end.

(** A frame that carries the matrix [m], large enough to be plotted. *)
Definition plottable (f : frame) (m : matrix) : Prop :=
  frame_mat f = ret m /\ readable m.

(** * Properties *)

(** ** Rounding *)

Section Rounding.

Lemma Rabs_le_between (a b : R) : Rabs a <= b -> - b <= a <= b.
Proof. unfold Rabs. destruct (Rcase_abs a); lra. Qed.

Lemma round_half_even_IZR (n : Z) : round_half_even (IZR n) = n.
Proof.
  unfold round_half_even. rewrite ZfloorZ.
  destruct (Rlt_dec (IZR n - IZR n) (1 / 2)) as [_ | H]; [reflexivity | ].
  exfalso. apply H. lra.
Qed.

Lemma round_half_even_error (y : R) :
  Rabs (IZR (round_half_even y) - y) <= 1 / 2.
Proof.
  unfold round_half_even.
  pose proof (Zfloor_bound y) as [Hlo Hhi].
  destruct (Rlt_dec (y - IZR (Zfloor y)) (1 / 2)) as [Hlt | Hge].
  - apply Rabs_le. lra.
  - destruct (Rlt_dec (1 / 2) (y - IZR (Zfloor y))) as [Hgt | Hle].
    + rewrite plus_IZR. apply Rabs_le. lra.
    + destruct (Z.even (Zfloor y)).
      * apply Rabs_le. lra.
      * rewrite plus_IZR. apply Rabs_le. lra.
Qed.

Lemma Zfloor_opp_fractional (y : R) :
  IZR (Zfloor y) < y -> Zfloor (- y) = (- Zfloor y - 1)%Z.
Proof.
  intros Hfrac. pose proof (Zfloor_bound y) as [_ Hhi].
  apply Zfloor_eq. rewrite minus_IZR, opp_IZR. lra.
Qed.

Lemma round_half_even_opp (y : R) :
  round_half_even (- y) = (- round_half_even y)%Z.
Proof.
  pose proof (Zfloor_bound y) as [Hlo Hhi].
  destruct (Req_dec (IZR (Zfloor y)) y) as [Hint | Hfrac].
  - rewrite <- Hint, <- opp_IZR, !round_half_even_IZR. reflexivity.
  - assert (Hlt : IZR (Zfloor y) < y) by lra.
    unfold round_half_even. rewrite (Zfloor_opp_fractional y Hlt).
    rewrite minus_IZR, opp_IZR.
    assert (Heven : Z.even (- Zfloor y - 1) = negb (Z.even (Zfloor y))).
    { replace (- Zfloor y - 1)%Z with (- (Zfloor y + 1))%Z by lia.
      rewrite Z.even_opp, Z.add_1_r, Z.even_succ, <- Z.negb_even.
      reflexivity. }
    rewrite Heven.
    destruct (Rlt_dec (- y - (- IZR (Zfloor y) - 1)) (1 / 2)) as [A | A];
      destruct (Rlt_dec (y - IZR (Zfloor y)) (1 / 2)) as [B | B];
      try (exfalso; lra);
      [ destruct (Rlt_dec (1 / 2) (y - IZR (Zfloor y))) as [C | C];
        [ lia | exfalso; lra ]
      | destruct (Rlt_dec (1 / 2) (- y - (- IZR (Zfloor y) - 1))) as [C | C];
        [ lia | exfalso; lra ]
      | ].
    destruct (Rlt_dec (1 / 2) (- y - (- IZR (Zfloor y) - 1))) as [C | C];
      destruct (Rlt_dec (1 / 2) (y - IZR (Zfloor y))) as [D | D];
      try (exfalso; lra).
    destruct (Z.even (Zfloor y)); simpl; lia.
Qed.

Lemma round5_opp (x : R) : round5 (- x) = - round5 x.
Proof.
  unfold round5.
  replace (- x * 100000) with (- (x * 100000)) by ring.
  rewrite round_half_even_opp, opp_IZR. field.
Qed.

Lemma round5_error (x : R) : Rabs (round5 x - x) <= 1 / 200000.
Proof.
  unfold round5.
  pose proof (round_half_even_error (x * 100000)) as H.
  apply Rabs_le_between in H. apply Rabs_le. lra.
Qed.

(** A multiple of 1e-5 is its own rounding. *)
Lemma round5_decimal (n : Z) : round5 (IZR n / 100000) = IZR n / 100000.
Proof.
  unfold round5.
  replace (IZR n / 100000 * 100000) with (IZR n) by field.
  rewrite round_half_even_IZR. reflexivity.
Qed.

Lemma round5_idempotent (x : R) : round5 (round5 x) = round5 x.
Proof. unfold round5 at 2 3. apply round5_decimal. Qed.

Lemma round5_0 : round5 0 = 0.
Proof.
  replace 0 with (IZR 0 / 100000) at 1 by (simpl; field).
  rewrite round5_decimal. simpl. field.
Qed.

Lemma round5_1 : round5 1 = 1.
Proof.
  replace 1 with (IZR 100000 / 100000) at 1 by field.
  rewrite round5_decimal. field.
Qed.

(** Any real within half a unit in the fifth place of a decimal rounds
    to that decimal. *)
Lemma round5_near (n : Z) (x : R) :
  IZR n / 100000 - 1 / 200000 < x < IZR n / 100000 + 1 / 200000 ->
  round5 x = IZR n / 100000.
Proof.
  intros [Hlo Hhi]. unfold round5. f_equal. f_equal.
  unfold round_half_even.
  pose proof (Zfloor_bound (x * 100000)) as [Flo Fhi].
  set (f := Zfloor (x * 100000)) in *.
  assert (Hup : (f < n + 1)%Z).
  { apply lt_IZR. rewrite plus_IZR. lra. }
  assert (Hdown : (n - 2 < f)%Z).
  { apply lt_IZR. rewrite minus_IZR. lra. }
  assert (Hcases : f = n \/ f = (n - 1)%Z) by lia.
  destruct Hcases as [-> | ->].
  - destruct (Rlt_dec (x * 100000 - IZR n) (1 / 2)) as [A | A];
      [reflexivity | exfalso; lra].
  - rewrite minus_IZR in *.
    destruct (Rlt_dec (x * 100000 - (IZR n - 1)) (1 / 2)) as [A | A];
      [exfalso; lra | ].
    destruct (Rlt_dec (1 / 2) (x * 100000 - (IZR n - 1))) as [B | B];
      [lia | exfalso; lra].
Qed.

End Rounding.

(** ** Axis codes *)

Lemma upper_char_preimage (c d : ascii) :
  upper_char c = d -> c = d \/ nat_of_ascii c = (nat_of_ascii d + 32)%nat.
Proof.
  intros <-.
  destruct c as [[] [] [] [] [] [] [] []]; vm_compute; auto.
Qed.

(** A one-letter code is met, after [upper], by that letter in either case
    and by nothing else. *)
Lemma upper_single (code : string) (d : ascii) :
  upper code = String d EmptyString ->
  code = String d EmptyString
  \/ code = String (ascii_of_nat (nat_of_ascii d + 32)) EmptyString.
Proof.
  destruct code as [ | c [ | c' rest]]; simpl; try discriminate.
  intros H. injection H as H.
  destruct (upper_char_preimage c d H) as [-> | Hc]; [left; reflexivity | right].
  rewrite <- Hc, ascii_nat_embedding. reflexivity.
Qed.

Lemma upper_X (code : string) : upper code = "X"%string <-> code = "X"%string \/ code = "x"%string.
Proof.
  split; [apply (upper_single code "X"%char) | intros [-> | ->]; reflexivity].
Qed.

Lemma upper_Y (code : string) : upper code = "Y"%string <-> code = "Y"%string \/ code = "y"%string.
Proof.
  split; [apply (upper_single code "Y"%char) | intros [-> | ->]; reflexivity].
Qed.

Lemma upper_Z (code : string) : upper code = "Z"%string <-> code = "Z"%string \/ code = "z"%string.
Proof.
  split; [apply (upper_single code "Z"%char) | intros [-> | ->]; reflexivity].
Qed.

Lemma upper_I (code : string) : upper code = "I"%string <-> code = "I"%string \/ code = "i"%string.
Proof.
  split; [apply (upper_single code "I"%char) | intros [-> | ->]; reflexivity].
Qed.

(** ** The four branches of HTM.__init__ *)

Section Branches.

Variables (name code : string) (L : R).

Lemma init_X (th : R) :
  upper code = "X"%string ->
  HTM.__init__ name code L (Some th) =
  ret (HTM.Build name "X" L (Some (radians th))
         (Some [ [1; 0; 0; L];
                 [0; round5 (cos (radians th)); round5 (- sin (radians th)); 0];
                 [0; round5 (sin (radians th)); round5 (cos (radians th)); 0];
                 [0; 0; 0; 1] ])).
Proof. intros H. unfold HTM.__init__. rewrite H. reflexivity. Qed.

Lemma init_Y (th : R) :
  upper code = "Y"%string ->
  HTM.__init__ name code L (Some th) =
  ret (HTM.Build name "Y" L (Some (radians th))
         (Some [ [round5 (cos (radians th)); 0; round5 (sin (radians th));
                  L * round5 (cos (radians th))];
                 [0; 1; 0; 0];
                 [round5 (- sin (radians th)); 0; round5 (cos (radians th));
                  L * round5 (sin (radians th))];
                 [0; 0; 0; 1] ])).
Proof. intros H. unfold HTM.__init__. rewrite H. reflexivity. Qed.

Lemma init_Z (th : R) :
  upper code = "Z"%string ->
  HTM.__init__ name code L (Some th) =
  ret (HTM.Build name "Z" L (Some (radians th))
         (Some [ [round5 (cos (radians th)); round5 (- sin (radians th)); 0;
                  L * round5 (cos (radians th))];
                 [round5 (sin (radians th)); round5 (cos (radians th)); 0;
                  L * round5 (sin (radians th))];
                 [0; 0; 1; 0];
                 [0; 0; 0; 1] ])).
Proof. intros H. unfold HTM.__init__. rewrite H. reflexivity. Qed.

Lemma init_I :
  upper code = "I"%string ->
  HTM.__init__ name code L None =
  ret (HTM.Build name "I" L None
         (Some [ [1; 0; 0; L]; [0; 1; 0; 0]; [0; 0; 1; 0]; [0; 0; 0; 1] ])).
Proof. intros H. unfold HTM.__init__. rewrite H. reflexivity. Qed.

(** A rotation code without an angle: the first cosine call raises. *)
Lemma init_rotation_without_angle :
  rotation_code code = true ->
  HTM.__init__ name code L None = Run (Raised TypeError) [].
Proof.
  unfold rotation_code, HTM.__init__. intros H.
  destruct (String.eqb (upper code) "X"); [reflexivity | ].
  destruct (String.eqb (upper code) "Y"); [reflexivity | ].
  destruct (String.eqb (upper code) "Z"); [reflexivity | discriminate].
Qed.

(** The fall-through branch: an unknown code, or the identity code with an
    angle. *)
Lemma init_fall_through (theta : option R) :
  rotation_code code = false ->
  identity_code code = false \/ theta <> None ->
  HTM.__init__ name code L theta =
  Run (Returned (HTM.Build name (upper code) L (option_map radians theta) None))
      [diagnostic name].
Proof.
  unfold rotation_code, identity_code, HTM.__init__. intros Hrot Hid.
  apply orb_false_elim in Hrot as [Hxy Hz].
  apply orb_false_elim in Hxy as [Hx Hy].
  rewrite Hx, Hy, Hz.
  destruct Hid as [Hi | Hth].
  - rewrite Hi. destruct theta; reflexivity.
  - destruct theta as [th | ]; [ | contradiction].
    rewrite andb_false_r. reflexivity.
Qed.

End Branches.

Lemma valid_spec_cases (code : string) (theta : option R) :
  valid_spec code theta = true ->
  (exists th, theta = Some th
    /\ (upper code = "X" \/ upper code = "Y" \/ upper code = "Z")%string)
  \/ (theta = None /\ upper code = "I"%string).
Proof.
  unfold valid_spec, rotation_code, identity_code.
  destruct theta as [th | ]; intros H.
  - left. exists th. split; [reflexivity | ].
    apply orb_true_iff in H as [H | H];
      [apply orb_true_iff in H as [H | H] | ];
      apply String.eqb_eq in H; auto.
  - right. apply String.eqb_eq in H. auto.
Qed.

(** ** Angles of the worked examples *)

Lemma radians_0 : radians 0 = 0.
Proof. unfold radians. field. Qed.

Lemma radians_150 : radians 150 = PI - PI / 6.
Proof. unfold radians. field. Qed.


Lemma cos_150 : cos (radians 150) = - (sqrt 3 / 2).
Proof. rewrite radians_150, cos_pi_minus, cos_PI6. reflexivity. Qed.

Lemma sqrt_3_bounds : 173205 / 100000 < sqrt 3 < 173206 / 100000.
Proof.
  assert (Hsq : sqrt 3 * sqrt 3 = 3) by (apply sqrt_sqrt; lra).
  pose proof (sqrt_pos 3) as Hpos.
  split; nra.
Qed.

Lemma round5_cos_150 : round5 (cos (radians 150)) = - (86603 / 100000).
Proof.
  rewrite cos_150, round5_opp. f_equal.
  apply (round5_near 86603). pose proof sqrt_3_bounds. lra.
Qed.


(** ** Elementary construction *)

(** C1: for every name, link length [L] and angle [th] in degrees, with
    [c] and [s] the cosine and sine of the angle in radians rounded to five
    places, the constructor builds the X, Y and Z matrices (rotation block
    and translation column as listed, the X translation being [L, 0, 0]
    whatever the angle) and, for the identity code without an angle, the
    identity rotation with translation [L, 0, 0]; the bottom row is
    [0, 0, 0, 1] each time, and the code is accepted in either case. *)
Theorem elementary_construction (name code : string) (L th : R) :
  let c := round5 (cos (radians th)) in
  let s := round5 (sin (radians th)) in
  ((code = "X" \/ code = "x")%string ->
     HTM.__init__ name code L (Some th) =
     ret (HTM.Build name "X" L (Some (radians th))
            (Some [ [1; 0; 0; L]; [0; c; - s; 0]; [0; s; c; 0]; [0; 0; 0; 1] ])))
  /\ ((code = "Y" \/ code = "y")%string ->
     HTM.__init__ name code L (Some th) =
     ret (HTM.Build name "Y" L (Some (radians th))
            (Some [ [c; 0; s; L * c]; [0; 1; 0; 0]; [- s; 0; c; L * s];
                    [0; 0; 0; 1] ])))
  /\ ((code = "Z" \/ code = "z")%string ->
     HTM.__init__ name code L (Some th) =
     ret (HTM.Build name "Z" L (Some (radians th))
            (Some [ [c; - s; 0; L * c]; [s; c; 0; L * s]; [0; 0; 1; 0];
                    [0; 0; 0; 1] ])))
  /\ ((code = "I" \/ code = "i")%string ->
     HTM.__init__ name code L None =
     ret (HTM.Build name "I" L None
            (Some [ [1; 0; 0; L]; [0; 1; 0; 0]; [0; 0; 1; 0]; [0; 0; 0; 1] ]))).
Proof.
  intros c s. subst c s.
  repeat split; intros H.
  - apply upper_X in H. rewrite (init_X name code L th H), round5_opp. reflexivity.
  - apply upper_Y in H. rewrite (init_Y name code L th H), round5_opp. reflexivity.
  - apply upper_Z in H. rewrite (init_Z name code L th H), round5_opp. reflexivity.
  - apply upper_I in H. apply (init_I name code L H).
Qed.

Lemma elementary_construction_witness :
  HTM.__init__ "T_12" "y" 4 (Some 100) =
  ret (HTM.Build "T_12" "Y" 4 (Some (radians 100))
         (Some [ [round5 (cos (radians 100)); 0; round5 (sin (radians 100));
                  4 * round5 (cos (radians 100))];
                 [0; 1; 0; 0];
                 [- round5 (sin (radians 100)); 0; round5 (cos (radians 100));
                  4 * round5 (sin (radians 100))];
                 [0; 0; 0; 1] ])).
Proof.
  apply (proj1 (proj2 (elementary_construction "T_12" "y" 4 100))).
  right. reflexivity.
Defined.


(** ** Rejected joint specifications *)

(** C10: for every name, link length and code outside the recognised
    variants (a code that is none of X, Y, Z, I in either case, or the
    code I given together with an angle) the constructor returns normally:
    it prints the diagnostic line and yields an object with its name, its
    upper-cased type, its length and its angle in radians (when given) but
    with no matrix attribute, so reading the matrix afterwards fails. *)
Theorem unrecognised_returns_without_matrix
    (name code : string) (L : R) (theta : option R) :
  rotation_code code = false ->
  identity_code code = false \/ theta <> None ->
  let self := HTM.Build name (upper code) L (option_map radians theta) None in
  HTM.__init__ name code L theta = Run (Returned self) [diagnostic name]
  /\ HTM.get_mat self = Run (Raised AttributeError) []
  /\ frame_mat (Elementary self) = Run (Raised AttributeError) []
  /\ forall (other : string) (r2 : matrix),
       (m <- HTM.get_mat self ;; CalculatedHTM.__init__ other m r2)%py
       = Run (Raised AttributeError) [].
Proof.
  intros Hrot Hid self. split.
  - apply init_fall_through; assumption.
  - repeat split.
Qed.

Lemma unrecognised_returns_without_matrix_witness :
  let self := HTM.Build "T_01" "W" 5 (Some (radians 150)) None in
  HTM.__init__ "T_01" "w" 5 (Some 150) = Run (Returned self) [diagnostic "T_01"]
  /\ HTM.get_mat self = Run (Raised AttributeError) []
  /\ frame_mat (Elementary self) = Run (Raised AttributeError) []
  /\ forall (other : string) (r2 : matrix),
       (m <- HTM.get_mat self ;; CalculatedHTM.__init__ other m r2)%py
       = Run (Raised AttributeError) [].
Proof.
  apply (unrecognised_returns_without_matrix "T_01" "w" 5 (Some 150)).
  - reflexivity.
  - left. reflexivity.
Defined.

(** C5, as stated, fails: an unknown code does not make the constructor
    raise; it returns an object. *)
Lemma unknown_code_does_not_raise :
  valid_spec "W" (Some 150) = false
  /\ exists self,
       HTM.__init__ "T_01" "W" 5 (Some 150)
       = Run (Returned self) [diagnostic "T_01"].
Proof.
  split; [reflexivity | ]. eexists.
  apply (init_fall_through "T_01" "W" 5 (Some 150) eq_refl (or_introl eq_refl)).
Qed.

(** C5, amended: a joint specification that is not valid never yields a
    matrix.  A rotation code without an angle makes the constructor raise
    (the [TypeError] of the first cosine call, nothing printed); an unknown
    code, or the identity code with an angle, makes it print the
    diagnostic and return an object that has no matrix. *)
Theorem invalid_spec_yields_no_matrix
    (name code : string) (L : R) (theta : option R) :
  valid_spec code theta = false ->
  (theta = None /\ rotation_code code = true
   /\ HTM.__init__ name code L theta = Run (Raised TypeError) [])
  \/ (rotation_code code = false
      /\ exists self, HTM.__init__ name code L theta
                      = Run (Returned self) [diagnostic name]
                      /\ HTM.mat self = None).
Proof.
  intros Hbad.
  destruct (rotation_code code) eqn:Hrot.
  - left. destruct theta as [th | ].
    + simpl in Hbad. congruence.
    + repeat split. apply init_rotation_without_angle. exact Hrot.
  - right. split; [reflexivity | ].
    exists (HTM.Build name (upper code) L (option_map radians theta) None).
    split; [ | reflexivity].
    apply init_fall_through; [exact Hrot | ].
    destruct theta as [th | ].
    + right. discriminate.
    + left. exact Hbad.
Qed.

Lemma invalid_spec_yields_no_matrix_witness :
  (@None R = None /\ rotation_code "x" = true
   /\ HTM.__init__ "T_45" "x" (3 / 2) None = Run (Raised TypeError) [])
  \/ (rotation_code "x" = false
      /\ exists self, HTM.__init__ "T_45" "x" (3 / 2) None
                      = Run (Returned self) [diagnostic "T_45"]
                      /\ HTM.mat self = None).
Proof.
  apply (invalid_spec_yields_no_matrix "T_45" "x" (3 / 2) None).
  reflexivity.
Defined.

(** ** Which entries are rounded *)

(** C8, as stated, fails: the translation entry that holds the link length
    is stored as given, not rounded. *)
Lemma link_length_entry_not_rounded :
  exists self m,
    HTM.__init__ "R_00" "i" (1 / 1000000) None = ret self
    /\ HTM.mat self = Some m
    /\ valid_spec "i" None = true
    /\ round5 (entry m 0 3) <> entry m 0 3.
Proof.
  eexists. eexists. split; [apply init_I; reflexivity | ].
  split; [reflexivity | ]. split; [reflexivity | ].
  unfold entry. simpl.
  rewrite (round5_near 0 (1 / 1000000)) by lra. lra.
Qed.

(** Settles [round5 (entry m i j) = entry m i j] at every position of a
    literal 4x4 matrix where the entry is 0, 1 or already a rounding. *)
Ltac rounded_entry i j :=
  destruct i as [ | [ | [ | [ | i]]]]; try lia;
  destruct j as [ | [ | [ | [ | j]]]]; try lia;
  unfold entry; simpl;
  first [ apply round5_0 | apply round5_1 | apply round5_idempotent ].

(** C8, amended: for every valid joint specification the entries of the
    first three columns (the rotation block and the zeros under it) and of
    the bottom row equal their own rounding to five places.  The
    translation column is not passed through the rounding: it is
    [L, 0, 0] for the X and identity variants, [L*c, 0, L*s] for the Y
    variant and [L*c, L*s, 0] for the Z variant, [c] and [s] being the
    cosine and the sine of the angle, in radians, rounded to five places;
    the products with [L] are stored as they are. *)
Theorem rotation_and_bottom_entries_rounded
    (name code : string) (L : R) (theta : option R) :
  valid_spec code theta = true ->
  exists self m,
    HTM.__init__ name code L theta = ret self
    /\ HTM.mat self = Some m
    /\ (forall i j, (i < 4)%nat -> (j < 4)%nat -> (j < 3)%nat \/ i = 3%nat ->
          round5 (entry m i j) = entry m i j)
    /\ match theta with
       | None =>
           upper code = "I"%string /\ translation_column m = [L; 0; 0]
       | Some th =>
           let c := round5 (cos (radians th)) in
           let s := round5 (sin (radians th)) in
           (upper code = "X"%string /\ translation_column m = [L; 0; 0])
           \/ (upper code = "Y"%string
               /\ translation_column m = [L * c; 0; L * s])
           \/ (upper code = "Z"%string
               /\ translation_column m = [L * c; L * s; 0])
       end.
Proof.
  intros Hok.
  destruct (valid_spec_cases code theta Hok)
    as [(th & -> & [H | [H | H]]) | [-> H]].
  - eexists. eexists. split; [apply init_X; exact H | ].
    split; [reflexivity | ]. split.
    + intros i j Hi Hj Hpos. rounded_entry i j.
    + left. split; [exact H | reflexivity].
  - eexists. eexists. split; [apply init_Y; exact H | ].
    split; [reflexivity | ]. split.
    + intros i j Hi Hj Hpos. rounded_entry i j.
    + right. left. split; [exact H | reflexivity].
  - eexists. eexists. split; [apply init_Z; exact H | ].
    split; [reflexivity | ]. split.
    + intros i j Hi Hj Hpos. rounded_entry i j.
    + right. right. split; [exact H | reflexivity].
  - eexists. eexists. split; [apply init_I; exact H | ].
    split; [reflexivity | ]. split.
    + intros i j Hi Hj Hpos. rounded_entry i j.
    + split; [exact H | reflexivity].
Qed.

Lemma rotation_and_bottom_entries_rounded_witness :
  exists self m,
    HTM.__init__ "T_01" "z" 5 (Some 150) = ret self
    /\ HTM.mat self = Some m
    /\ (forall i j, (i < 4)%nat -> (j < 4)%nat -> (j < 3)%nat \/ i = 3%nat ->
          round5 (entry m i j) = entry m i j)
    /\ (let c := round5 (cos (radians 150)) in
        let s := round5 (sin (radians 150)) in
        (upper "z" = "X"%string /\ translation_column m = [5; 0; 0])
        \/ (upper "z" = "Y"%string
            /\ translation_column m = [5 * c; 0; 5 * s])
        \/ (upper "z" = "Z"%string
            /\ translation_column m = [5 * c; 5 * s; 0])).
Proof.
  apply (rotation_and_bottom_entries_rounded "T_01" "z" 5 (Some 150)).
  reflexivity.
Defined.

(** ** The monad *)

Lemma bind_ret (A B : Type) (a : A) (f : A -> py B) : bind (ret a) f = f a.
Proof. unfold bind, ret. simpl. destruct (f a). reflexivity. Qed.

(** ** numpy.dot *)

Lemma inner_4 (x0 x1 x2 x3 y0 y1 y2 y3 : R) :
  inner [x0; x1; x2; x3] [y0; y1; y2; y3] = x0 * y0 + x1 * y1 + x2 * y2 + x3 * y3.
Proof. simpl. ring. Qed.

Lemma length_4 (A : Type) (l : list A) :
  List.length l = 4%nat -> exists a b c d, l = [a; b; c; d].
Proof.
  destruct l as [ | a [ | b [ | c [ | d [ | e l]]]]]; try discriminate.
  intros _. exists a, b, c, d. reflexivity.
Qed.

(** A 4x4 matrix is a literal of sixteen entries. *)
Lemma shape_4x4 (m : matrix) :
  shape m = Some (4, 4)%nat ->
  exists a00 a01 a02 a03 a10 a11 a12 a13 a20 a21 a22 a23 a30 a31 a32 a33,
    m = [ [a00; a01; a02; a03]; [a10; a11; a12; a13];
          [a20; a21; a22; a23]; [a30; a31; a32; a33] ].
Proof.
  unfold shape. destruct m as [ | r0 rows]; [discriminate | ].
  destruct (forallb _ rows) eqn:Hrows; [ | discriminate].
  intros H. injection H as Hlen Hr0.
  destruct rows as [ | r1 [ | r2 [ | r3 [ | r4 rest]]]]; try discriminate.
  simpl in Hrows. rewrite Hr0 in Hrows.
  apply andb_true_iff in Hrows as [H1 Hrows].
  apply andb_true_iff in Hrows as [H2 Hrows].
  apply andb_true_iff in Hrows as [H3 _].
  apply Nat.eqb_eq in H1, H2, H3.
  destruct (length_4 _ r0 Hr0) as (a00 & a01 & a02 & a03 & ->).
  destruct (length_4 _ r1 H1) as (a10 & a11 & a12 & a13 & ->).
  destruct (length_4 _ r2 H2) as (a20 & a21 & a22 & a23 & ->).
  destruct (length_4 _ r3 H3) as (a30 & a31 & a32 & a33 & ->).
  repeat eexists.
Qed.

(** On 4x4 operands [np.dot] is the row-by-column product. *)
Lemma np_dot_4x4 (a b : matrix) :
  shape a = Some (4, 4)%nat -> shape b = Some (4, 4)%nat ->
  np_dot a b = ret (matrix_product_4x4 a b).
Proof.
  intros Ha Hb.
  destruct (shape_4x4 a Ha)
    as (a00 & a01 & a02 & a03 & a10 & a11 & a12 & a13
        & a20 & a21 & a22 & a23 & a30 & a31 & a32 & a33 & ->).
  destruct (shape_4x4 b Hb)
    as (b00 & b01 & b02 & b03 & b10 & b11 & b12 & b13
        & b20 & b21 & b22 & b23 & b30 & b31 & b32 & b33 & ->).
  unfold np_dot, matrix_product_4x4, row_by_column, entry, columns, column.
  cbn [shape forallb List.length Nat.eqb andb map seq nth].
  rewrite !inner_4. reflexivity.
Qed.

Lemma shape_product_4x4 (a b : matrix) :
  shape (matrix_product_4x4 a b) = Some (4, 4)%nat.
Proof. reflexivity. Qed.

Lemma entry_product_4x4 (a b : matrix) (i j : nat) :
  (i < 4)%nat -> (j < 4)%nat ->
  entry (matrix_product_4x4 a b) i j = row_by_column a b i j.
Proof.
  intros Hi Hj.
  destruct i as [ | [ | [ | [ | i]]]]; try lia;
    destruct j as [ | [ | [ | [ | j]]]]; try lia; reflexivity.
Qed.

Lemma init_4x4 (name : string) (a b : matrix) :
  shape a = Some (4, 4)%nat -> shape b = Some (4, 4)%nat ->
  CalculatedHTM.__init__ name a b
  = ret (CalculatedHTM.Build name a b (matrix_product_4x4 a b)).
Proof.
  intros Ha Hb. unfold CalculatedHTM.__init__.
  rewrite (np_dot_4x4 a b Ha Hb), bind_ret. reflexivity.
Qed.

Lemma shape_nonempty (m : matrix) (n k : nat) :
  shape m = Some (n, k) -> m <> [] /\ n = List.length m.
Proof.
  unfold shape. destruct m as [ | row rows]; [discriminate | ].
  destruct (forallb _ rows); [ | discriminate].
  intros H. injection H as <- _. split; [discriminate | reflexivity].
Qed.

Lemma shape_map_rows (f : list R -> list R) (a : matrix) (w : nat) :
  a <> [] -> (forall r, List.length (f r) = w) ->
  shape (map f a) = Some (List.length a, w).
Proof.
  intros Ha Hf. destruct a as [ | row rows]; [contradiction | ].
  unfold shape. cbn [map].
  replace (forallb _ (map f rows)) with true.
  - cbn [List.length]. rewrite length_map, Hf. reflexivity.
  - symmetry. apply forallb_forall. intros r Hr.
    apply in_map_iff in Hr as (r' & <- & _).
    rewrite !Hf. apply Nat.eqb_refl.
Qed.

Lemma shape_rows (m : matrix) (n k : nat) :
  shape m = Some (n, k) -> forall r, In r m -> List.length r = k.
Proof.
  unfold shape. destruct m as [ | row rows]; [discriminate | ].
  destruct (forallb _ rows) eqn:Hrows; [ | discriminate].
  intros H. injection H as _ <-. intros r [<- | Hr]; [reflexivity | ].
  rewrite forallb_forall in Hrows. apply Nat.eqb_eq, Hrows, Hr.
Qed.

Lemma sum_upto_shift (k : nat) (f : nat -> R) :
  sum_upto (S k) f = f 0%nat + sum_upto k (fun t => f (S t)).
Proof.
  induction k as [ | k IH].
  - simpl. ring.
  - change (sum_upto (S (S k)) f) with (sum_upto (S k) f + f (S k)).
    rewrite IH. simpl. ring.
Qed.

(** The inner product of a row with column [j] of [b], position by
    position. *)
Lemma inner_column (b : matrix) (j : nat) (u : list R) :
  List.length u = List.length b ->
  inner u (column b j) = sum_upto (List.length b) (fun t => nth t u 0 * entry b t j).
Proof.
  revert u. induction b as [ | row b IH]; intros u Hlen.
  - destruct u; [reflexivity | discriminate].
  - destruct u as [ | x u]; [discriminate | ].
    injection Hlen as Hlen.
    cbn [List.length column map inner]. rewrite sum_upto_shift.
    unfold column in IH. rewrite (IH u Hlen). reflexivity.
Qed.

(** Entry [(i, j)] of what [np.dot] returns on aligned operands. *)
Lemma np_dot_entry (a b : matrix) (n k w i j : nat) :
  shape a = Some (n, k) -> shape b = Some (k, w) ->
  (i < n)%nat -> (j < w)%nat ->
  entry (map (fun row => map (inner row) (columns b w)) a) i j
  = row_times_column a b k i j.
Proof.
  intros Ha Hb Hi Hj.
  destruct (shape_nonempty a n k Ha) as [_ ->].
  destruct (shape_nonempty b k w Hb) as [_ Hk].
  unfold entry, row_times_column, columns.
  rewrite (nth_indep _ [] (map (inner []) (map (column b) (seq 0 w))))
    by (rewrite length_map; exact Hi).
  rewrite (map_nth (fun row => map (inner row) (map (column b) (seq 0 w)))).
  rewrite (nth_indep _ 0 (inner (nth i a []) (column b 0)))
    by (rewrite !length_map, length_seq; exact Hj).
  rewrite (map_nth (inner (nth i a []))).
  rewrite (map_nth (column b)), seq_nth by exact Hj.
  cbn [Nat.add]. rewrite inner_column.
  - rewrite <- Hk. reflexivity.
  - rewrite <- Hk. apply (shape_rows a (List.length a) k Ha), nth_In, Hi.
Qed.

Lemma product_identity (A : matrix) :
  shape A = Some (4, 4)%nat ->
  matrix_product_4x4 A identity4 = A /\ matrix_product_4x4 identity4 A = A.
Proof.
  intros HA.
  destruct (shape_4x4 A HA)
    as (a00 & a01 & a02 & a03 & a10 & a11 & a12 & a13
        & a20 & a21 & a22 & a23 & a30 & a31 & a32 & a33 & ->).
  unfold matrix_product_4x4, row_by_column, identity4, entry.
  cbn [map seq nth].
  split; repeat (f_equal; try ring).
Qed.

(** ** Composition *)

Lemma init_aligned (name : string) (r1 r2 : matrix) (n k w : nat) :
  shape r1 = Some (n, k) -> shape r2 = Some (k, w) ->
  let m := map (fun row => map (inner row) (columns r2 w)) r1 in
  CalculatedHTM.__init__ name r1 r2 = ret (CalculatedHTM.Build name r1 r2 m)
  /\ shape m = Some (n, w).
Proof.
  intros H1 H2 m. subst m. split.
  - unfold CalculatedHTM.__init__, np_dot.
    rewrite H1, H2, Nat.eqb_refl, bind_ret. reflexivity.
  - destruct (shape_nonempty r1 n k H1) as [Hne ->].
    apply shape_map_rows; [exact Hne | ].
    intros r. unfold columns. rewrite !length_map, length_seq. reflexivity.
Qed.

(** C2: the composed matrix is the linear-algebra product.  On operands
    of aligned shapes [n x k] and [k x w] it is the [n x w] matrix whose
    entry [(i, j)] is the sum over the [k] positions of row [i] of [r1]
    times column [j] of [r2]; on 4x4 operands it is the 4x4 matrix of the
    four-term row-by-column products.  This is not the element-wise
    product, from which it differs already on the X transform of length 5
    and angle 0 composed with itself. *)
Theorem composition_is_matrix_product :
  (forall (name : string) (r1 r2 : matrix) (n k w : nat),
     shape r1 = Some (n, k) -> shape r2 = Some (k, w) ->
     exists c,
       CalculatedHTM.__init__ name r1 r2 = ret c
       /\ shape (CalculatedHTM.mat c) = Some (n, w)
       /\ forall i j, (i < n)%nat -> (j < w)%nat ->
            entry (CalculatedHTM.mat c) i j = row_times_column r1 r2 k i j)
  /\ (forall (name : string) (r1 r2 : matrix),
     shape r1 = Some (4, 4)%nat -> shape r2 = Some (4, 4)%nat ->
     exists c,
       CalculatedHTM.__init__ name r1 r2 = ret c
       /\ CalculatedHTM.mat c = matrix_product_4x4 r1 r2
       /\ shape (CalculatedHTM.mat c) = Some (4, 4)%nat
       /\ forall i j, (i < 4)%nat -> (j < 4)%nat ->
            entry (CalculatedHTM.mat c) i j
            = entry r1 i 0 * entry r2 0 j + entry r1 i 1 * entry r2 1 j
              + entry r1 i 2 * entry r2 2 j + entry r1 i 3 * entry r2 3 j)
  /\ (let a := [ [1; 0; 0; 5]; [0; 1; 0; 0]; [0; 0; 1; 0]; [0; 0; 0; 1] ] in
      exists c,
        CalculatedHTM.__init__ "T_02" a a = ret c
        /\ entry (CalculatedHTM.mat c) 0 3 = 10
        /\ entry (elementwise_product a a) 0 3 = 25).
Proof.
  split; [ | split].
  - intros name r1 r2 n k w H1 H2.
    destruct (init_aligned name r1 r2 n k w H1 H2) as [Hinit Hshape].
    eexists. split; [exact Hinit | ]. split; [exact Hshape | ].
    intros i j Hi Hj. apply (np_dot_entry r1 r2 n k w i j H1 H2 Hi Hj).
  - intros name r1 r2 H1 H2.
    exists (CalculatedHTM.Build name r1 r2 (matrix_product_4x4 r1 r2)).
    split; [apply init_4x4; assumption | ].
    split; [reflexivity | ]. split; [apply shape_product_4x4 | ].
    intros i j Hi Hj. apply (entry_product_4x4 r1 r2 i j Hi Hj).
  - intros a. subst a. eexists. split; [apply init_4x4; reflexivity | ].
    unfold matrix_product_4x4, row_by_column, elementwise_product, entry.
    cbn [CalculatedHTM.mat map seq nth combine fst snd].
    split; lra.
Qed.

Lemma composition_is_matrix_product_witness :
  let a := [ [1; 0; 0; 5]; [0; 1; 0; 0]; [0; 0; 1; 0]; [0; 0; 0; 1] ] in
  exists c,
    CalculatedHTM.__init__ "T_02" a a = ret c
    /\ CalculatedHTM.mat c = matrix_product_4x4 a a
    /\ shape (CalculatedHTM.mat c) = Some (4, 4)%nat
    /\ forall i j, (i < 4)%nat -> (j < 4)%nat ->
         entry (CalculatedHTM.mat c) i j
         = entry a i 0 * entry a 0 j + entry a i 1 * entry a 1 j
           + entry a i 2 * entry a 2 j + entry a i 3 * entry a 3 j.
Proof.
  intros a.
  apply (proj1 (proj2 composition_is_matrix_product) "T_02"%string a a);
    reflexivity.
Defined.

(** C6, as stated, fails: two 2x2 operands are composed without error. *)
Lemma composition_accepts_2x2 :
  let a := [ [1; 0]; [0; 1] ] in
  shape a = Some (2, 2)%nat
  /\ exists c, result (CalculatedHTM.__init__ "T_02" a a) = Returned c.
Proof.
  intros a. split; [reflexivity | ].
  eexists. unfold CalculatedHTM.__init__, np_dot. cbn [a shape forallb List.length Nat.eqb andb].
  rewrite bind_ret. reflexivity.
Qed.

(** C6, amended: composition checks alignment only.  For operands of
    shapes [n x k] and [k' x w] it raises ([ValueError], from [np.dot])
    exactly when [k] differs from [k'], and otherwise returns an [n x w]
    matrix; two 4x4 operands always compose. *)
Theorem composition_fails_iff_misaligned
    (name : string) (r1 r2 : matrix) (n k k' w : nat) :
  shape r1 = Some (n, k) -> shape r2 = Some (k', w) ->
  (k = k' ->
     exists c, CalculatedHTM.__init__ name r1 r2 = ret c
               /\ shape (CalculatedHTM.mat c) = Some (n, w))
  /\ (k <> k' -> CalculatedHTM.__init__ name r1 r2 = Run (Raised ValueError) []).
Proof.
  intros H1 H2. split; intros Hk.
  - subst k'. destruct (init_aligned name r1 r2 n k w H1 H2) as [Hinit Hshape].
    eexists. split; [exact Hinit | exact Hshape].
  - unfold CalculatedHTM.__init__, np_dot. rewrite H1, H2.
    apply Nat.eqb_neq in Hk. rewrite Hk. reflexivity.
Qed.

Lemma composition_fails_iff_misaligned_witness :
  (4%nat = 4%nat ->
     exists c, CalculatedHTM.__init__ "T_02" identity4 identity4 = ret c
               /\ shape (CalculatedHTM.mat c) = Some (4, 4)%nat)
  /\ (4%nat <> 4%nat ->
      CalculatedHTM.__init__ "T_02" identity4 identity4 = Run (Raised ValueError) []).
Proof.
  apply (composition_fails_iff_misaligned "T_02" identity4 identity4 4 4 4 4);
    reflexivity.
Defined.

(** C9: composing a 4x4 matrix [A] (every valid homogeneous transform is
    one) with the identity transform, on the left or on the right, gives
    back [A] itself, hence a matrix within the rounding tolerance of [A]. *)
Theorem identity_is_neutral (name : string) (A : matrix) :
  shape A = Some (4, 4)%nat ->
  (exists c, CalculatedHTM.__init__ name A identity4 = ret c
             /\ CalculatedHTM.mat c = A
             /\ close_within tolerance (CalculatedHTM.mat c) A)
  /\ (exists c, CalculatedHTM.__init__ name identity4 A = ret c
                /\ CalculatedHTM.mat c = A
                /\ close_within tolerance (CalculatedHTM.mat c) A).
Proof.
  intros HA.
  assert (Hclose : close_within tolerance A A).
  { split; [reflexivity | ]. intros i j.
    replace (entry A i j - entry A i j) with 0 by ring.
    rewrite Rabs_R0. unfold tolerance. lra. }
  destruct (product_identity A HA) as [Hright Hleft].
  split; eexists; (split; [apply init_4x4; [assumption || reflexivity ..] | ]);
    cbn [CalculatedHTM.mat]; [rewrite Hright | rewrite Hleft]; auto.
Qed.

Lemma identity_is_neutral_witness :
  let A := [ [1; 0; 0; 5]; [0; 1; 0; 0]; [0; 0; 1; 0]; [0; 0; 0; 1] ] in
  (exists c, CalculatedHTM.__init__ "T_01" A identity4 = ret c
             /\ CalculatedHTM.mat c = A
             /\ close_within tolerance (CalculatedHTM.mat c) A)
  /\ (exists c, CalculatedHTM.__init__ "T_01" identity4 A = ret c
                /\ CalculatedHTM.mat c = A
                /\ close_within tolerance (CalculatedHTM.mat c) A).
Proof.
  intros A. apply (identity_is_neutral "T_01" A). reflexivity.
Defined.

(** ** Chain assembly *)

Lemma cos_100_negative : cos (radians 100) < 0.
Proof.
  pose proof PI_RGT_0 as Hpi.
  apply cos_lt_0; unfold radians; lra.
Qed.

Lemma round5_cos_100_not_1 : round5 (cos (radians 100)) <> 1.
Proof.
  pose proof cos_100_negative as Hneg.
  pose proof (round5_error (cos (radians 100))) as Herr.
  apply Rabs_le_between in Herr. lra.
Qed.

(** The run of [main]: the frames handed to the plotting routine and the
    one line printed on the way. *)
Lemma main_run :
  exists (R_00 T_01 T_12 T_23 T_34 T_45 : HTM.t) (J1 J2 J3 J4 J5 : matrix),
    HTM.__init__ "R_00" "i" 0 None = ret R_00
    /\ HTM.__init__ "T_01" "z" 5 (Some 150) = ret T_01
    /\ HTM.__init__ "T_12" "y" 4 (Some 100) = ret T_12
    /\ HTM.__init__ "T_23" "z" 3 (Some (-90)) = ret T_23
    /\ HTM.__init__ "T_34" "z" 3 (Some (-60)) = ret T_34
    /\ HTM.__init__ "T_34" "x" (3 / 2) (Some 90) = ret T_45
    /\ HTM.mat R_00 = Some identity4
    /\ HTM.mat T_01 = Some J1 /\ HTM.mat T_12 = Some J2
    /\ HTM.mat T_23 = Some J3 /\ HTM.mat T_34 = Some J4
    /\ HTM.mat T_45 = Some J5
    /\ shape J1 = Some (4, 4)%nat /\ shape J2 = Some (4, 4)%nat
    /\ shape J3 = Some (4, 4)%nat /\ shape J4 = Some (4, 4)%nat
    /\ shape J5 = Some (4, 4)%nat
    /\ entry J1 1 1 = round5 (cos (radians 150))
    /\ entry (matrix_product_4x4 J1 J2) 1 1 = entry J1 1 1
    /\ entry J2 1 1 = 1
    /\ entry (matrix_product_4x4 J1 J2) 2 2 = round5 (cos (radians 100))
    /\ entry J3 2 2 = 1
    /\ (forall P, entry (matrix_product_4x4 P J3) 2 2 = entry P 2 2)
    /\ entry J4 2 2 = 1
    /\ (forall P, entry (matrix_product_4x4 P J4) 2 2 = entry P 2 2)
    /\ (let T_02 := CalculatedHTM.Build "T_02" J1 J2 (matrix_product_4x4 J1 J2) in
        let T_03 := CalculatedHTM.Build "T_03" (CalculatedHTM.mat T_02) J3
                      (matrix_product_4x4 (CalculatedHTM.mat T_02) J3) in
        let T_04 := CalculatedHTM.Build "T_04" (CalculatedHTM.mat T_03) J4
                      (matrix_product_4x4 (CalculatedHTM.mat T_03) J4) in
        let T_05 := CalculatedHTM.Build "T_05" (CalculatedHTM.mat T_04) J5
                      (matrix_product_4x4 (CalculatedHTM.mat T_04) J5) in
        main = Run (Returned [ Elementary R_00; Elementary T_01; Calculated T_02;
                               Calculated T_03; Calculated T_04; Calculated T_05 ])
                   [ ("Frame List: R_00, T_01, T_02, T_03, T_04, T_05"
                      ++ String "010" "")%string ]).
Proof.
  do 11 eexists.
  split; [apply init_I; reflexivity | ].
  split; [apply init_Z; reflexivity | ].
  split; [apply init_Y; reflexivity | ].
  split; [apply init_Z; reflexivity | ].
  split; [apply init_Z; reflexivity | ].
  split; [apply init_X; reflexivity | ].
  do 11 (split; [reflexivity | ]).
  split; [reflexivity | ].
  split.
  { unfold matrix_product_4x4, row_by_column, entry. cbn [map seq nth]. ring. }
  split; [reflexivity | ].
  split.
  { unfold matrix_product_4x4, row_by_column, entry. cbn [map seq nth]. ring. }
  split; [reflexivity | ].
  split.
  { intros P. unfold matrix_product_4x4, row_by_column, entry.
    cbn [map seq nth]. ring. }
  split; [reflexivity | ].
  split.
  { intros P. unfold matrix_product_4x4, row_by_column, entry.
    cbn [map seq nth]. ring. }
  intros T_02 T_03 T_04 T_05. unfold main.
  rewrite (init_I "R_00" "i" 0 eq_refl), bind_ret.
  rewrite (init_Z "T_01" "z" 5 150 eq_refl), bind_ret.
  rewrite (init_Y "T_12" "y" 4 100 eq_refl), bind_ret.
  rewrite (init_Z "T_23" "z" 3 (-90) eq_refl), bind_ret.
  rewrite (init_Z "T_34" "z" 3 (-60) eq_refl), bind_ret.
  rewrite (init_X "T_34" "x" (3 / 2) 90 eq_refl), bind_ret.
  unfold HTM.get_mat. cbn [HTM.mat].
  rewrite !bind_ret.
  rewrite init_4x4 by reflexivity. rewrite !bind_ret. cbn [CalculatedHTM.mat].
  rewrite init_4x4 by reflexivity. rewrite !bind_ret. cbn [CalculatedHTM.mat].
  rewrite init_4x4 by reflexivity. rewrite !bind_ret. cbn [CalculatedHTM.mat].
  rewrite init_4x4 by reflexivity. rewrite !bind_ret. cbn [CalculatedHTM.mat].
  reflexivity.
Qed.

(** C4: the frame sequence assembled by [main] starts with the world
    frame, whose matrix is the 4x4 identity; the frame at position 1 is
    joint 1's transform, which is the world pose composed with it; every
    later frame is the composition of the previous frame's world-relative
    matrix (left operand) with the next joint's elementary matrix (right
    operand), and that left operand differs from the previous joint's
    elementary matrix; the sequence is the result of six appends, in
    order. *)
Theorem chain_assembly :
  exists (R_00 T_01 T_12 T_23 T_34 T_45 : HTM.t)
         (T_02 T_03 T_04 T_05 : CalculatedHTM.t) (J1 J2 J3 J4 J5 : matrix),
    (HTM.__init__ "R_00" "i" 0 None = ret R_00
     /\ HTM.__init__ "T_01" "z" 5 (Some 150) = ret T_01
     /\ HTM.__init__ "T_12" "y" 4 (Some 100) = ret T_12
     /\ HTM.__init__ "T_23" "z" 3 (Some (-90)) = ret T_23
     /\ HTM.__init__ "T_34" "z" 3 (Some (-60)) = ret T_34
     /\ HTM.__init__ "T_34" "x" (3 / 2) (Some 90) = ret T_45)
    /\ (HTM.mat T_01 = Some J1 /\ HTM.mat T_12 = Some J2
        /\ HTM.mat T_23 = Some J3 /\ HTM.mat T_34 = Some J4
        /\ HTM.mat T_45 = Some J5)
    /\ result main
       = Returned [ Elementary R_00; Elementary T_01; Calculated T_02;
                    Calculated T_03; Calculated T_04; Calculated T_05 ]
    /\ [ Elementary R_00; Elementary T_01; Calculated T_02;
         Calculated T_03; Calculated T_04; Calculated T_05 ]
       = append (append (append (append (append (append []
           (Elementary R_00)) (Elementary T_01)) (Calculated T_02))
           (Calculated T_03)) (Calculated T_04)) (Calculated T_05)
    /\ HTM.mat R_00 = Some identity4
    /\ np_dot identity4 J1 = ret J1
    /\ CalculatedHTM.__init__ "T_02" J1 J2 = ret T_02
    /\ CalculatedHTM.__init__ "T_03" (CalculatedHTM.mat T_02) J3 = ret T_03
    /\ CalculatedHTM.__init__ "T_04" (CalculatedHTM.mat T_03) J4 = ret T_04
    /\ CalculatedHTM.__init__ "T_05" (CalculatedHTM.mat T_04) J5 = ret T_05
    /\ CalculatedHTM.mat T_02 <> J2
    /\ CalculatedHTM.mat T_03 <> J3
    /\ CalculatedHTM.mat T_04 <> J4.
Proof.
  destruct main_run
    as (R_00 & T_01 & T_12 & T_23 & T_34 & T_45 & J1 & J2 & J3 & J4 & J5
        & I0 & I1 & I2 & I3 & I4 & I5 & M0 & M1 & M2 & M3 & M4 & M5
        & S1 & S2 & S3 & S4 & S5
        & E1 & E12 & E2 & E22 & E3 & EP3 & E4 & EP4 & Hmain).
  cbv zeta in Hmain.
  exists R_00, T_01, T_12, T_23, T_34, T_45.
  exists (CalculatedHTM.Build "T_02" J1 J2 (matrix_product_4x4 J1 J2)).
  exists (CalculatedHTM.Build "T_03" (matrix_product_4x4 J1 J2) J3
            (matrix_product_4x4 (matrix_product_4x4 J1 J2) J3)).
  exists (CalculatedHTM.Build "T_04"
            (matrix_product_4x4 (matrix_product_4x4 J1 J2) J3) J4
            (matrix_product_4x4
               (matrix_product_4x4 (matrix_product_4x4 J1 J2) J3) J4)).
  exists (CalculatedHTM.Build "T_05"
            (matrix_product_4x4
               (matrix_product_4x4 (matrix_product_4x4 J1 J2) J3) J4) J5
            (matrix_product_4x4
               (matrix_product_4x4
                  (matrix_product_4x4 (matrix_product_4x4 J1 J2) J3) J4) J5)).
  exists J1, J2, J3, J4, J5.
  cbn [CalculatedHTM.mat] in *.
  split; [repeat split; assumption | ].
  split; [repeat split; assumption | ].
  split; [rewrite Hmain; reflexivity | ].
  split; [reflexivity | ].
  split; [exact M0 | ].
  split.
  { rewrite np_dot_4x4 by (reflexivity || assumption).
    f_equal. f_equal. apply (product_identity J1 S1). }
  split; [apply init_4x4; assumption | ].
  split; [apply init_4x4; [apply shape_product_4x4 | assumption] | ].
  split; [apply init_4x4; [apply shape_product_4x4 | assumption] | ].
  split; [apply init_4x4; [apply shape_product_4x4 | assumption] | ].
  split; [ | split].
  - intros Heq. apply (f_equal (fun m => entry m 1 1)) in Heq.
    rewrite E12, E1, E2, round5_cos_150 in Heq. lra.
  - intros Heq. apply (f_equal (fun m => entry m 2 2)) in Heq.
    rewrite EP3, E22, E3 in Heq. exact (round5_cos_100_not_1 Heq).
  - intros Heq. apply (f_equal (fun m => entry m 2 2)) in Heq.
    rewrite EP4, EP3, E22, E4 in Heq. exact (round5_cos_100_not_1 Heq).
Qed.

(** ** Valid homogeneous transforms *)

(** The rounded cosine and sine of one angle stay on the unit circle up
    to the tolerance. *)
Lemma rounded_unit_circle (t : R) :
  Rabs (round5 (cos t) * round5 (cos t) + round5 (sin t) * round5 (sin t) - 1)
  <= tolerance.
Proof.
  pose proof (round5_error (cos t)) as Hc. apply Rabs_le_between in Hc.
  pose proof (round5_error (sin t)) as Hs. apply Rabs_le_between in Hs.
  pose proof (sin2_cos2 t) as Hunit. unfold Rsqr in Hunit.
  pose proof (COS_bound t) as Bc. pose proof (SIN_bound t) as Bs.
  set (c := round5 (cos t)) in *. set (s := round5 (sin t)) in *.
  set (C := cos t) in *. set (S := sin t) in *.
  unfold tolerance. apply Rabs_le.
  replace (c * c + s * s - 1)
    with (2 * C * (c - C) + (c - C) * (c - C)
          + 2 * S * (s - S) + (s - S) * (s - S))
    by (rewrite <- Hunit; ring).
  split; nra.
Qed.

Lemma tolerance_nonneg : 0 <= tolerance.
Proof. unfold tolerance. lra. Qed.

(** Closes [Rabs e <= tolerance] when [e] is, up to ring identities, zero
    or the defect [c * c + s * s - 1] of a rounded pair. *)
Ltac within_tolerance c s Hcircle :=
  match goal with
  | |- Rabs ?e <= tolerance =>
      first
        [ replace e with 0 by ring; rewrite Rabs_R0; apply tolerance_nonneg
        | replace e with (c * c + s * s - 1) by ring; exact Hcircle ]
  end.

Ltac orthonormal_literal c s Hcircle :=
  let i := fresh "i" in
  let j := fresh "j" in
  let Hi := fresh "Hi" in
  let Hj := fresh "Hj" in
  intros i j Hi Hj;
  destruct i as [ | [ | [ | i]]]; try lia;
  destruct j as [ | [ | [ | j]]]; try lia;
  unfold gram, kronecker, entry, rotation_block;
  cbn [map firstn nth Nat.eqb];
  within_tolerance c s Hcircle.

Ltac det_literal c s Hcircle :=
  unfold det3, entry, rotation_block;
  cbn [map firstn nth];
  within_tolerance c s Hcircle.

(** Every matrix built from a valid joint specification is a homogeneous
    transform valid up to the tolerance. *)
Lemma elementary_valid (name code : string) (L : R) (theta : option R) :
  valid_spec code theta = true ->
  exists self m,
    HTM.__init__ name code L theta = ret self
    /\ HTM.mat self = Some m
    /\ valid_within tolerance m
    /\ (theta = None -> rotation_block m = identity3).
Proof.
  intros Hok.
  destruct (valid_spec_cases code theta Hok)
    as [(th & -> & [H | [H | H]]) | [-> H]].
  - eexists. eexists. split; [apply init_X; exact H | ].
    split; [reflexivity | ]. split; [ | discriminate].
    rewrite round5_opp.
    pose proof (rounded_unit_circle (radians th)) as Hcircle.
    set (c := round5 (cos (radians th))) in *.
    set (s := round5 (sin (radians th))) in *.
    split; [reflexivity | ]. split; [reflexivity | ].
    split; [orthonormal_literal c s Hcircle | det_literal c s Hcircle].
  - eexists. eexists. split; [apply init_Y; exact H | ].
    split; [reflexivity | ]. split; [ | discriminate].
    rewrite round5_opp.
    pose proof (rounded_unit_circle (radians th)) as Hcircle.
    set (c := round5 (cos (radians th))) in *.
    set (s := round5 (sin (radians th))) in *.
    split; [reflexivity | ]. split; [reflexivity | ].
    split; [orthonormal_literal c s Hcircle | det_literal c s Hcircle].
  - eexists. eexists. split; [apply init_Z; exact H | ].
    split; [reflexivity | ]. split; [ | discriminate].
    rewrite round5_opp.
    pose proof (rounded_unit_circle (radians th)) as Hcircle.
    set (c := round5 (cos (radians th))) in *.
    set (s := round5 (sin (radians th))) in *.
    split; [reflexivity | ]. split; [reflexivity | ].
    split; [orthonormal_literal c s Hcircle | det_literal c s Hcircle].
  - eexists. eexists. split; [apply init_I; exact H | ].
    split; [reflexivity | ]. split; [ | reflexivity].
    pose proof (rounded_unit_circle 0) as Hcircle.
    split; [reflexivity | ]. split; [reflexivity | ].
    split; [orthonormal_literal (round5 (cos 0)) (round5 (sin 0)) Hcircle
           | det_literal (round5 (cos 0)) (round5 (sin 0)) Hcircle].
Qed.

Lemma term_bound (x y E e : R) :
  Rabs E <= e ->
  - (e * (x * x + y * y) / 2) <= x * E * y <= e * (x * x + y * y) / 2.
Proof.
  intros HE. apply Rabs_le_between in HE.
  pose proof (Rle_0_sqr (x - y)) as Hminus.
  pose proof (Rle_0_sqr (x + y)) as Hplus.
  unfold Rsqr in Hminus, Hplus.
  assert (H1 : 0 <= ((x * x + y * y) / 2 - x * y) * (e + E))
    by (apply Rmult_le_pos; lra).
  assert (H2 : 0 <= ((x * x + y * y) / 2 + x * y) * (e - E))
    by (apply Rmult_le_pos; lra).
  assert (H3 : 0 <= ((x * x + y * y) / 2 - x * y) * (e - E))
    by (apply Rmult_le_pos; lra).
  assert (H4 : 0 <= ((x * x + y * y) / 2 + x * y) * (e + E))
    by (apply Rmult_le_pos; lra).
  split; lra.
Qed.

(** How far the Gram entries of a product [A * B] of 3x3 blocks can be
    from those of the identity: [x] and [y] are two columns of [B], [d]
    the entry of the identity they should give, the [a] are the entries
    of [A]. *)
Lemma gram_of_product
    (a00 a01 a02 a10 a11 a12 a20 a21 a22 x0 x1 x2 y0 y1 y2 e1 e2 d : R) :
  orthonormal_within e1 [ [a00; a01; a02]; [a10; a11; a12]; [a20; a21; a22] ] ->
  Rabs (x0 * y0 + x1 * y1 + x2 * y2 - d) <= e2 ->
  x0 * x0 + x1 * x1 + x2 * x2 <= 1 + e2 ->
  y0 * y0 + y1 * y1 + y2 * y2 <= 1 + e2 ->
  Rabs ((a00 * x0 + a01 * x1 + a02 * x2) * (a00 * y0 + a01 * y1 + a02 * y2)
        + (a10 * x0 + a11 * x1 + a12 * x2) * (a10 * y0 + a11 * y1 + a12 * y2)
        + (a20 * x0 + a21 * x1 + a22 * x2) * (a20 * y0 + a21 * y1 + a22 * y2)
        - d)
  <= e2 + 3 * e1 * (1 + e2).
Proof.
  intros HA Hxy Hx Hy.
  pose proof (HA 0%nat 0%nat ltac:(lia) ltac:(lia)) as G00.
  pose proof (HA 0%nat 1%nat ltac:(lia) ltac:(lia)) as G01.
  pose proof (HA 0%nat 2%nat ltac:(lia) ltac:(lia)) as G02.
  pose proof (HA 1%nat 0%nat ltac:(lia) ltac:(lia)) as G10.
  pose proof (HA 1%nat 1%nat ltac:(lia) ltac:(lia)) as G11.
  pose proof (HA 1%nat 2%nat ltac:(lia) ltac:(lia)) as G12.
  pose proof (HA 2%nat 0%nat ltac:(lia) ltac:(lia)) as G20.
  pose proof (HA 2%nat 1%nat ltac:(lia) ltac:(lia)) as G21.
  pose proof (HA 2%nat 2%nat ltac:(lia) ltac:(lia)) as G22.
  unfold gram, kronecker, entry in *. cbn [nth Nat.eqb] in *.
  assert (He1 : 0 <= e1) by (pose proof (Rabs_pos (a00 * a00 + a10 * a10 + a20 * a20 - 1)); lra).
  pose proof (term_bound x0 y0 _ e1 G00) as T00.
  pose proof (term_bound x0 y1 _ e1 G01) as T01.
  pose proof (term_bound x0 y2 _ e1 G02) as T02.
  pose proof (term_bound x1 y0 _ e1 G10) as T10.
  pose proof (term_bound x1 y1 _ e1 G11) as T11.
  pose proof (term_bound x1 y2 _ e1 G12) as T12.
  pose proof (term_bound x2 y0 _ e1 G20) as T20.
  pose proof (term_bound x2 y1 _ e1 G21) as T21.
  pose proof (term_bound x2 y2 _ e1 G22) as T22.
  apply Rabs_le_between in Hxy.
  assert (Hsum : e1 * (x0 * x0 + x1 * x1 + x2 * x2) <= e1 * (1 + e2)) by nra.
  assert (Hsum' : e1 * (y0 * y0 + y1 * y1 + y2 * y2) <= e1 * (1 + e2)) by nra.
  apply Rabs_le. split; lra.
Qed.

(** Composition of a transform valid up to [e1] with one valid up to [e2]:
    the defects add up, the left one weighted by the size of the right
    block. *)
Lemma composition_valid (name : string) (a b : matrix) (e1 e2 : R) :
  valid_within e1 a -> valid_within e2 b ->
  exists c,
    CalculatedHTM.__init__ name a b = ret c
    /\ valid_within (e2 + 3 * e1 * (1 + e2)) (CalculatedHTM.mat c).
Proof.
  intros (Sa & Ba & Oa & Da) (Sb & Bb & Ob & Db).
  exists (CalculatedHTM.Build name a b (matrix_product_4x4 a b)).
  split; [apply init_4x4; assumption | ].
  cbn [CalculatedHTM.mat].
  destruct (shape_4x4 a Sa)
    as (a00 & a01 & a02 & a03 & a10 & a11 & a12 & a13
        & a20 & a21 & a22 & a23 & a30 & a31 & a32 & a33 & ->).
  destruct (shape_4x4 b Sb)
    as (b00 & b01 & b02 & b03 & b10 & b11 & b12 & b13
        & b20 & b21 & b22 & b23 & b30 & b31 & b32 & b33 & ->).
  unfold bottom_row in Ba, Bb. cbn [nth] in Ba, Bb.
  injection Ba as -> -> -> ->. injection Bb as -> -> -> ->.
  assert (He1 : 0 <= e1) by (pose proof (Rabs_pos (det3 (rotation_block
    [[a00; a01; a02; a03]; [a10; a11; a12; a13]; [a20; a21; a22; a23];
     [0; 0; 0; 1]]) - 1)); lra).
  assert (He2 : 0 <= e2) by (pose proof (Rabs_pos (det3 (rotation_block
    [[b00; b01; b02; b03]; [b10; b11; b12; b13]; [b20; b21; b22; b23];
     [0; 0; 0; 1]]) - 1)); lra).
  unfold rotation_block in Oa, Ob, Da, Db. cbn [map firstn] in Oa, Ob, Da, Db.
  split; [reflexivity | ]. split; [ | split].
  - unfold bottom_row, matrix_product_4x4, row_by_column, entry.
    cbn [map seq nth]. repeat (f_equal; try ring).
  - intros i j Hi Hj.
    set (B3 := [[b00; b01; b02]; [b10; b11; b12]; [b20; b21; b22]]) in *.
    assert (Hii : forall k, (k < 3)%nat ->
              entry B3 0 k * entry B3 0 k + entry B3 1 k * entry B3 1 k
              + entry B3 2 k * entry B3 2 k <= 1 + e2).
    { intros k Hk. pose proof (Ob k k Hk Hk) as H.
      unfold gram, kronecker in H. rewrite Nat.eqb_refl in H.
      apply Rabs_le_between in H. lra. }
    pose proof (gram_of_product a00 a01 a02 a10 a11 a12 a20 a21 a22
                  (entry B3 0 i) (entry B3 1 i) (entry B3 2 i)
                  (entry B3 0 j) (entry B3 1 j) (entry B3 2 j)
                  e1 e2 (kronecker i j) Oa (Ob i j Hi Hj)
                  (Hii i Hi) (Hii j Hj)) as Hcore.
    match goal with
    | |- Rabs ?lhs <= _ =>
        match type of Hcore with
        | Rabs ?rhs <= _ => replace lhs with rhs; [exact Hcore | ]
        end
    end.
    subst B3.
    destruct i as [ | [ | [ | i]]]; try lia;
      destruct j as [ | [ | [ | j]]]; try lia;
      unfold gram, kronecker, rotation_block, matrix_product_4x4,
        row_by_column, entry;
      cbn [map seq firstn nth Nat.eqb]; ring.
  - assert (Hdet : det3 (rotation_block (matrix_product_4x4
                     [[a00; a01; a02; a03]; [a10; a11; a12; a13];
                      [a20; a21; a22; a23]; [0; 0; 0; 1]]
                     [[b00; b01; b02; b03]; [b10; b11; b12; b13];
                      [b20; b21; b22; b23]; [0; 0; 0; 1]]))
                   = det3 [[a00; a01; a02]; [a10; a11; a12]; [a20; a21; a22]]
                     * det3 [[b00; b01; b02]; [b10; b11; b12]; [b20; b21; b22]]).
    { unfold det3, rotation_block, matrix_product_4x4, row_by_column, entry.
      cbn [map seq firstn nth]. ring. }
    rewrite Hdet.
    apply Rabs_le_between in Da. apply Rabs_le_between in Db.
    set (dA := det3 [[a00; a01; a02]; [a10; a11; a12]; [a20; a21; a22]]) in *.
    set (dB := det3 [[b00; b01; b02]; [b10; b11; b12]; [b20; b21; b22]]) in *.
    apply Rabs_le. split; nra.
Qed.

(** C3, as stated, fails: a transform that is valid up to 1e-4 composed
    with itself is no longer valid up to 1e-4. *)
Lemma tolerance_not_closed_under_composition :
  let a := [ [100003 / 100000; 0; 0; 0]; [0; 100003 / 100000; 0; 0];
             [0; 0; 100003 / 100000; 0]; [0; 0; 0; 1] ] in
  valid_within tolerance a
  /\ exists c, CalculatedHTM.__init__ "T_02" a a = ret c
               /\ ~ valid_within tolerance (CalculatedHTM.mat c).
Proof.
  intros a. subst a. split.
  - split; [reflexivity | ]. split; [reflexivity | ]. split.
    + intros i j Hi Hj.
      destruct i as [ | [ | [ | i]]]; try lia;
        destruct j as [ | [ | [ | j]]]; try lia;
        unfold gram, kronecker, entry, rotation_block, tolerance;
        cbn [map firstn nth Nat.eqb]; apply Rabs_le; lra.
    + unfold det3, entry, rotation_block, tolerance.
      cbn [map firstn nth]. apply Rabs_le. lra.
  - eexists. split; [apply init_4x4; reflexivity | ].
    cbn [CalculatedHTM.mat]. intros (_ & _ & Horth & _).
    pose proof (Horth 0%nat 0%nat ltac:(lia) ltac:(lia)) as H.
    unfold gram, kronecker, rotation_block, matrix_product_4x4,
      row_by_column, entry, tolerance in H.
    cbn [map seq firstn nth Nat.eqb] in H.
    apply Rabs_le_between in H. lra.
Qed.

(** C3, amended: every matrix built from a valid joint specification has
    bottom row [0, 0, 0, 1] and a rotation block that is orthonormal with
    determinant one up to 1e-4, and exactly the identity for the identity
    variant whatever the link length.  Composition keeps the bottom row;
    operands valid up to [e1] (left) and [e2] (right) give a result valid
    up to [e2 + 3 * e1 * (1 + e2)], so that exactly valid operands give an
    exactly valid result while the fixed tolerance 1e-4 is not kept. *)
Theorem homogeneous_transform_invariant :
  (forall (name code : string) (L : R) (theta : option R),
     valid_spec code theta = true ->
     exists self m,
       HTM.__init__ name code L theta = ret self
       /\ HTM.mat self = Some m
       /\ valid_within tolerance m
       /\ (theta = None -> rotation_block m = identity3))
  /\ (forall (name : string) (a b : matrix) (e1 e2 : R),
        valid_within e1 a -> valid_within e2 b ->
        exists c,
          CalculatedHTM.__init__ name a b = ret c
          /\ valid_within (e2 + 3 * e1 * (1 + e2)) (CalculatedHTM.mat c))
  /\ (forall (name : string) (a b : matrix),
        valid_within 0 a -> valid_within 0 b ->
        exists c,
          CalculatedHTM.__init__ name a b = ret c
          /\ valid_within 0 (CalculatedHTM.mat c)).
Proof.
  split; [exact elementary_valid | ].
  split; [exact composition_valid | ].
  intros name a b Ha Hb.
  destruct (composition_valid name a b 0 0 Ha Hb) as (c & Hc & Hv).
  exists c. split; [exact Hc | ].
  replace (0 + 3 * 0 * (1 + 0)) with 0 in Hv by ring. exact Hv.
Qed.

Lemma homogeneous_transform_invariant_witness :
  exists self m,
    HTM.__init__ "R_00" "i" 0 None = ret self
    /\ HTM.mat self = Some m
    /\ valid_within tolerance m
    /\ (@None R = None -> rotation_block m = identity3).
Proof.
  apply (proj1 homogeneous_transform_invariant "R_00"%string "i"%string 0 None).
  reflexivity.
Defined.

(** * Further properties *)

(** ** The plotting monad *)

Lemma bind_assoc (A B C : Type) (m : py A) (f : A -> py B) (g : B -> py C) :
  bind (bind m f) g = bind m (fun a => bind (f a) g).
Proof.
  destruct m as [[a | e] out]; unfold bind; cbn [result printed].
  - destruct (f a) as [[b | e] out']; cbn [result printed].
    + rewrite app_assoc. reflexivity.
    + reflexivity.
  - reflexivity.
Qed.

Lemma bind_raise (A B : Type) (e : exn) (f : A -> py B) :
  bind (raise e) f = raise e.
Proof. reflexivity. Qed.

Lemma plot_bind_ret (A B : Type) (a : A) (f : A -> plot B) :
  plot_bind (plot_ret a) f = f a.
Proof. unfold plot_bind, plot_ret. apply bind_ret. Qed.

Lemma plot_bind_index_error (A B : Type) (f : A -> plot B) :
  plot_bind (ret IndexError) f = ret IndexError.
Proof. unfold plot_bind. apply bind_ret. Qed.

Lemma plot_bind_raise (A B : Type) (e : exn) (f : A -> plot B) :
  plot_bind (raise e) f = raise e.
Proof. reflexivity. Qed.

Lemma plot_bind_assoc (A B C : Type) (m : plot A) (f : A -> plot B) (g : B -> plot C) :
  plot_bind (plot_bind m f) g = plot_bind m (fun a => plot_bind (f a) g).
Proof.
  destruct m as [[[a | ] | e] out]; unfold plot_bind, bind, ret;
    cbn [result printed]; try reflexivity.
  destruct (f a) as [[[b | ] | e] out']; cbn [result printed];
    try reflexivity.
  - rewrite <- app_assoc. reflexivity.
  - rewrite <- app_assoc. reflexivity.
  - rewrite !app_nil_r. reflexivity.
Qed.

Lemma loop_app (frames : list frame) (l1 l2 : list nat) (st : scene) :
  loop frames (l1 ++ l2) st = plot_bind (loop frames l1 st) (loop frames l2).
Proof.
  revert st. induction l1 as [ | i l1 IH]; intros st.
  - cbn [app loop]. rewrite plot_bind_ret. reflexivity.
  - cbn [app loop]. rewrite plot_bind_assoc.
    destruct (loop_body frames i st) as [[[st' | ] | e] out];
      unfold plot_bind, bind; cbn [result printed]; try reflexivity.
    rewrite IH. reflexivity.
Qed.

(** ** Reading cells *)

Lemma readable_entry (m : matrix) (r c : nat) :
  readable m -> (r < 3)%nat -> (c < 4)%nat ->
  exists row, nth_error m r = Some row /\ nth_error row c = Some (entry m r c).
Proof.
  intros Hm Hr Hc. destruct (Hm r Hr) as (row & Hrow & Hlen).
  exists row. split; [exact Hrow | ].
  unfold entry. rewrite (nth_error_nth m r [] Hrow).
  apply nth_error_nth'. lia.
Qed.

Lemma cell_plottable (frames : list frame) (f : frame) (m : matrix) (i r c : nat) :
  nth_error frames i = Some f -> plottable f m ->
  (r < 3)%nat -> (c < 4)%nat ->
  cell frames i r c = plot_ret (entry m r c).
Proof.
  intros Hf [Hmat Hm] Hr Hc.
  destruct (readable_entry m r c Hm Hr Hc) as (row & Hrow & Hcell).
  unfold cell, index. rewrite Hf.
  change (ret (Found f)) with (plot_ret f). rewrite plot_bind_ret.
  rewrite Hmat, bind_ret, plot_bind_ret, Hrow.
  change (ret (Found row)) with (plot_ret row). rewrite plot_bind_ret.
  rewrite Hcell. reflexivity.
Qed.

Lemma axis_segment_plottable (frames : list frame) (f : frame) (m : matrix)
    (i k : nat) (color : string) (thickness : R) :
  nth_error frames i = Some f -> plottable f m -> (k < 3)%nat ->
  axis_segment frames i k color thickness = plot_ret (axis_of m k color thickness).
Proof.
  intros Hf Hm Hk. unfold axis_segment.
  repeat (rewrite (cell_plottable frames f m) by (assumption || lia);
          rewrite plot_bind_ret).
  reflexivity.
Qed.

Lemma link_segment_plottable (frames : list frame) (fp f : frame) (p m : matrix)
    (i : nat) :
  nth_error frames (i - 1) = Some fp -> plottable fp p ->
  nth_error frames i = Some f -> plottable f m ->
  link_segment frames i = plot_ret (link_of p m).
Proof.
  intros Hfp Hp Hf Hm. unfold link_segment.
  rewrite (cell_plottable frames fp p (i - 1) 0 3) by (assumption || lia).
  rewrite plot_bind_ret.
  rewrite (cell_plottable frames f m i 0 3) by (assumption || lia).
  rewrite plot_bind_ret.
  rewrite (cell_plottable frames fp p (i - 1) 1 3) by (assumption || lia).
  rewrite plot_bind_ret.
  rewrite (cell_plottable frames f m i 1 3) by (assumption || lia).
  rewrite plot_bind_ret.
  rewrite (cell_plottable frames fp p (i - 1) 2 3) by (assumption || lia).
  rewrite plot_bind_ret.
  rewrite (cell_plottable frames f m i 2 3) by (assumption || lia).
  rewrite plot_bind_ret.
  reflexivity.
Qed.

(** One turn of the loop on a plottable frame, the first of the list. *)
Lemma loop_body_first (frames : list frame) (f : frame) (m : matrix) (st : scene) :
  nth_error frames 0 = Some f -> plottable f m ->
  loop_body frames 0 st = plot_ret (scene_after st None [m]).
Proof.
  intros Hf Hm. unfold loop_body. cbn [Nat.eqb Nat.ltb Nat.leb].
  repeat (rewrite (axis_segment_plottable frames f m) by (assumption || lia);
          rewrite plot_bind_ret).
  repeat (rewrite (cell_plottable frames f m) by (assumption || lia);
          rewrite plot_bind_ret).
  cbn [scene_after axes_of app]. reflexivity.
Qed.

(** One turn of the loop on a plottable frame that has a predecessor. *)
Lemma loop_body_next (frames : list frame) (fp f : frame) (p m : matrix)
    (i : nat) (st : scene) :
  nth_error frames i = Some fp -> plottable fp p ->
  nth_error frames (S i) = Some f -> plottable f m ->
  loop_body frames (S i) st = plot_ret (scene_after st (Some p) [m]).
Proof.
  intros Hfp Hp Hf Hm. unfold loop_body.
  change (S i =? 0)%nat with false. change (0 <? S i)%nat with true. cbv iota.
  repeat (rewrite (axis_segment_plottable frames f m) by (assumption || lia);
          rewrite plot_bind_ret).
  repeat (rewrite (cell_plottable frames f m (S i)) by (assumption || lia);
          rewrite plot_bind_ret).
  rewrite (link_segment_plottable frames fp f p m (S i))
    by (assumption || (cbn [Nat.sub]; rewrite Nat.sub_0_r; assumption)).
  rewrite plot_bind_ret.
  cbn [scene_after axes_of app]. rewrite <- !app_assoc. reflexivity.
Qed.

(** ** The first loop of graph_frames *)

(** The loop over the positions [i, i + 1, ...] that hold the plottable
    frames [rest], from the state [st]. *)
Lemma loop_plottable (frames rest : list frame) (ms : list matrix) :
  Forall2 plottable rest ms ->
  forall (i : nat) (prev : option matrix) (st : scene),
    (forall j f, nth_error rest j = Some f -> nth_error frames (i + j) = Some f) ->
    match prev with
    | None => i = 0%nat
    | Some p => exists k fp, i = S k /\ nth_error frames k = Some fp /\ plottable fp p
    end ->
    loop frames (seq i (List.length rest)) st = plot_ret (scene_after st prev ms).
Proof.
  induction 1 as [ | f m rest ms Hfm Hrest IH]; intros i prev st Hpos Hprev.
  - reflexivity.
  - cbn [List.length seq loop].
    assert (Hf : nth_error frames i = Some f).
    { rewrite <- (Nat.add_0_r i). apply Hpos. reflexivity. }
    assert (Hbody : loop_body frames i st = plot_ret (scene_after st prev [m])).
    { destruct prev as [p | ].
      - destruct Hprev as (k & fp & -> & Hfp & Hp).
        apply (loop_body_next frames fp f p m k st Hfp Hp Hf Hfm).
      - subst i. apply (loop_body_first frames f m st Hf Hfm). }
    rewrite Hbody, plot_bind_ret.
    rewrite (IH (S i) (Some m) (scene_after st prev [m])).
    + reflexivity.
    + intros j g Hg. replace (S i + j)%nat with (i + S j)%nat by lia.
      apply Hpos. exact Hg.
    + exists i, f. auto.
Qed.

Lemma scene_after_some (ms : list matrix) (p : matrix) (st : scene) :
  scene_after st (Some p) ms
  = Scene (datasets st ++ chain_datasets p ms)
          (xLoc st ++ map (fun m => entry m 0 3) ms)
          (yLoc st ++ map (fun m => entry m 1 3) ms)
          (zLoc st ++ map (fun m => entry m 2 3) ms).
Proof.
  revert p st. induction ms as [ | m ms IH]; intros p st.
  - cbn [scene_after chain_datasets map]. rewrite !app_nil_r.
    destruct st; reflexivity.
  - cbn [scene_after chain_datasets map]. rewrite IH.
    cbn [datasets xLoc yLoc zLoc]. rewrite <- !app_assoc. reflexivity.
Qed.

Lemma scene_after_start (ms : list matrix) :
  scene_after (Scene [] [] [] []) None ms = scene_of ms.
Proof.
  destruct ms as [ | m ms]; [reflexivity | ].
  cbn [scene_after]. rewrite scene_after_some. reflexivity.
Qed.

Lemma collect_plottable (frames : list frame) (ms : list matrix) :
  Forall2 plottable frames ms -> collect frames = plot_ret (scene_of ms).
Proof.
  intros H. unfold collect.
  rewrite (loop_plottable frames frames ms H 0 None (Scene [] [] [] [])).
  - rewrite scene_after_start. reflexivity.
  - intros j f Hj. exact Hj.
  - reflexivity.
Qed.

Lemma shape_4x4_readable (m : matrix) : shape m = Some (4, 4)%nat -> readable m.
Proof.
  intros H.
  destruct (shape_4x4 m H)
    as (a00 & a01 & a02 & a03 & a10 & a11 & a12 & a13
        & a20 & a21 & a22 & a23 & a30 & a31 & a32 & a33 & ->).
  intros r Hr. destruct r as [ | [ | [ | r]]]; try lia;
    eexists; (split; [reflexivity | cbn; lia]).
Qed.

Lemma length_chain_datasets (p : matrix) (ms : list matrix) :
  List.length (chain_datasets p ms) = (4 * List.length ms)%nat.
Proof.
  revert p. induction ms as [ | m ms IH]; intros p; [reflexivity | ].
  cbn [chain_datasets]. unfold axes_of. rewrite !length_app, IH. cbn [List.length]. lia.
Qed.

Lemma length_all_datasets (ms : list matrix) :
  List.length (all_datasets ms) = (4 * List.length ms - 1)%nat.
Proof.
  destruct ms as [ | m ms]; [reflexivity | ].
  cbn [all_datasets]. unfold axes_of. rewrite length_app, length_chain_datasets.
  cbn [List.length]. lia.
Qed.

Lemma length_draw_scene (st : scene) :
  List.length (draw_scene st) = (2 * List.length (datasets st))%nat.
Proof.
  unfold draw_scene. induction (datasets st) as [ | d ds IH]; [reflexivity | ].
  cbn [flat_map app List.length]. rewrite IH. lia.
Qed.

Lemma graph_frames_scene (frames : list frame) (ms : list matrix) :
  Forall2 plottable frames ms ->
  graph_frames frames
  = (setup_calls ++ draw_scene (scene_of ms) ++ closing_calls, plot_ret tt).
Proof.
  intros H. unfold graph_frames. rewrite (collect_plottable frames ms H).
  reflexivity.
Qed.

(** X1: when every frame carries a matrix whose first three rows hold
    four entries, [graph_frames] ends normally, having made the set-up
    calls, then for every dataset one line and one scatter of all joints,
    then the closing calls.  The datasets are, frame after frame, the
    three axes from the frame's origin (thickness 2 for the first frame, 1
    for the others) followed, from the second frame on, by the black
    segment from the previous origin; the joints are the origins in
    order.  The fourth row of a matrix is never read. *)
Theorem graph_frames_plottable (frames : list frame) (ms : list matrix) :
  Forall2 plottable frames ms ->
  graph_frames frames
  = (setup_calls ++ draw_scene (scene_of ms) ++ closing_calls, plot_ret tt).
Proof.
  intros H. unfold graph_frames. rewrite (collect_plottable frames ms H).
  reflexivity.
Qed.

Lemma graph_frames_plottable_witness :
  let m := [ [1; 0; 0; 5]; [0; 1; 0; 0]; [0; 0; 1; 0] ] in
  let f := Calculated (CalculatedHTM.Build "T_01" identity4 m m) in
  graph_frames [f]
  = (setup_calls ++ draw_scene (scene_of [m]) ++ closing_calls, plot_ret tt).
Proof.
  intros m f. apply (graph_frames_plottable [f] [m]).
  constructor; [ | constructor]. split; [reflexivity | ].
  intros r Hr. destruct r as [ | [ | [ | r]]]; try lia;
    eexists; (split; [reflexivity | cbn; lia]).
Defined.

Lemma Forall_plottable (frames : list frame) :
  Forall (fun f => exists m, plottable f m) frames ->
  exists ms, Forall2 plottable frames ms.
Proof.
  induction 1 as [ | f frames [m Hm] _ [ms IH]].
  - exists []. constructor.
  - exists (m :: ms). constructor; assumption.
Qed.

(** X2: on [n] plottable frames the first loop collects [4 * n - 1]
    datasets (three axes per frame and one link per frame after the
    first) and [n] joint coordinates on each axis, and the routine makes
    [10 + 2 * (4 * n - 1)] calls in all; on the empty list nothing is
    collected and only the ten set-up and closing calls are made. *)
Theorem graph_frames_counts (frames : list frame) :
  Forall (fun f => exists m, plottable f m) frames ->
  let n := List.length frames in
  (exists st,
     collect frames = plot_ret st
     /\ List.length (datasets st) = (4 * n - 1)%nat
     /\ List.length (xLoc st) = n /\ List.length (yLoc st) = n
     /\ List.length (zLoc st) = n)
  /\ List.length (fst (graph_frames frames)) = (10 + 2 * (4 * n - 1))%nat
  /\ snd (graph_frames frames) = plot_ret tt.
Proof.
  intros H n. subst n. destruct (Forall_plottable frames H) as [ms Hms].
  pose proof (Forall2_length Hms) as Hlen.
  split.
  - exists (scene_of ms). split; [apply collect_plottable; exact Hms | ].
    cbn [scene_of datasets xLoc yLoc zLoc].
    rewrite length_all_datasets, !length_map, Hlen. auto.
  - rewrite (graph_frames_scene frames ms Hms). cbn [fst snd].
    split; [ | reflexivity].
    rewrite !length_app, length_draw_scene. cbn [scene_of datasets].
    rewrite length_all_datasets, Hlen. cbn [setup_calls closing_calls List.length].
    lia.
Qed.

Lemma graph_frames_counts_witness :
  let n := List.length (@nil frame) in
  (exists st,
     collect [] = plot_ret st
     /\ List.length (datasets st) = (4 * n - 1)%nat
     /\ List.length (xLoc st) = n /\ List.length (yLoc st) = n
     /\ List.length (zLoc st) = n)
  /\ List.length (fst (graph_frames [])) = (10 + 2 * (4 * n - 1))%nat
  /\ snd (graph_frames []) = plot_ret tt.
Proof.
  apply (graph_frames_counts []). constructor.
Defined.

(** ** Frames that cannot be plotted *)

Lemma cell_item (frames : list frame) (f : frame) (m : matrix) (i r c : nat) :
  nth_error frames i = Some f -> frame_mat f = ret m ->
  cell frames i r c = ret (item m r c).
Proof.
  intros Hf Hm. unfold cell, item, index. rewrite Hf.
  change (ret (Found f)) with (plot_ret f). rewrite plot_bind_ret.
  rewrite Hm, bind_ret, plot_bind_ret.
  destruct (nth_error m r) as [row | ].
  - change (ret (Found row)) with (plot_ret row). rewrite plot_bind_ret.
    reflexivity.
  - apply plot_bind_index_error.
Qed.

Lemma cell_raises (frames : list frame) (f : frame) (e : exn) (i r c : nat) :
  nth_error frames i = Some f -> frame_mat f = raise e ->
  cell frames i r c = raise e.
Proof.
  intros Hf Hm. unfold cell, index. rewrite Hf.
  change (ret (Found f)) with (plot_ret f). rewrite plot_bind_ret.
  rewrite Hm. reflexivity.
Qed.

Lemma loop_body_raises (frames : list frame) (f : frame) (e : exn) (i : nat)
    (st : scene) :
  nth_error frames i = Some f -> frame_mat f = raise e ->
  loop_body frames i st = raise e.
Proof.
  intros Hf Hm. unfold loop_body, axis_segment.
  rewrite (cell_raises frames f e i 0 3 Hf Hm). reflexivity.
Qed.

Lemma item_found_readable (m : matrix) :
  (forall r, (r < 3)%nat -> exists x, item m r 3 = Found x) -> readable m.
Proof.
  intros H r Hr. destruct (H r Hr) as [x Hx].
  unfold item, index in Hx.
  destruct (nth_error m r) as [row | ]; [ | discriminate].
  exists row. split; [reflexivity | ].
  destruct (nth_error row 3) eqn:Hrow; [ | discriminate].
  assert (3 < List.length row)%nat; [ | lia].
  apply nth_error_Some. rewrite Hrow. discriminate.
Qed.

Lemma unreadable_item (m : matrix) :
  ~ readable m -> exists r, (r < 3)%nat /\ item m r 3 = IndexError.
Proof.
  intros Hm.
  destruct (item m 0 3) as [x0 | ] eqn:H0; [ | exists 0%nat; split; [lia | exact H0]].
  destruct (item m 1 3) as [x1 | ] eqn:H1; [ | exists 1%nat; split; [lia | exact H1]].
  destruct (item m 2 3) as [x2 | ] eqn:H2; [ | exists 2%nat; split; [lia | exact H2]].
  exfalso. apply Hm, item_found_readable.
  intros r Hr. destruct r as [ | [ | [ | r]]]; try lia; eauto.
Qed.

(** Steps through the reads of a turn of the loop, one [item] at a time. *)
Ltac run_items :=
  repeat match goal with
    | |- context [plot_bind (ret (Found ?a)) _] =>
        change (ret (Found a)) with (plot_ret a); rewrite plot_bind_ret
    | |- context [plot_bind (ret IndexError) _] =>
        rewrite plot_bind_index_error
    | |- context [plot_bind (ret (item ?m ?r ?c)) _] =>
        destruct (item m r c) eqn:?
    end.

Lemma loop_body_index_error (frames : list frame) (f : frame) (m : matrix)
    (i : nat) (st : scene) :
  nth_error frames i = Some f -> frame_mat f = ret m -> ~ readable m ->
  loop_body frames i st = ret IndexError.
Proof.
  intros Hf Hm Hbad.
  destruct (unreadable_item m Hbad) as (r & Hr & Hitem).
  unfold loop_body.
  assert (Haxis : forall color thickness,
            axis_segment frames i 0 color thickness = ret IndexError).
  { intros color thickness. unfold axis_segment.
    rewrite !(cell_item frames f m i _ _ Hf Hm).
    destruct r as [ | [ | [ | r]]]; try lia;
      run_items; try reflexivity; congruence. }
  rewrite Haxis. apply plot_bind_index_error.
Qed.

(** The first loop stops at the first turn that fails. *)
Lemma collect_stops (good rest : list frame) (bad : frame) (ms : list matrix)
    (failure : plot scene) :
  Forall2 plottable good ms ->
  (forall st, loop_body (good ++ bad :: rest) (List.length good) st = failure) ->
  (forall f : scene -> plot scene, plot_bind failure f = failure) ->
  collect (good ++ bad :: rest) = failure.
Proof.
  intros Hgood Hbody Hstop. unfold collect.
  rewrite length_app. cbn [List.length].
  rewrite seq_app, loop_app. cbn [Nat.add seq loop].
  rewrite (loop_plottable (good ++ bad :: rest) good ms Hgood 0 None).
  - rewrite plot_bind_ret, Hbody. apply Hstop.
  - intros j f Hj. cbn [Nat.add]. rewrite nth_error_app1; [exact Hj | ].
    apply nth_error_Some. rewrite Hj. discriminate.
  - reflexivity.
Qed.

Lemma nth_error_middle (A : Type) (l1 l2 : list A) (a : A) :
  nth_error (l1 ++ a :: l2) (List.length l1) = Some a.
Proof.
  rewrite nth_error_app2 by lia. rewrite Nat.sub_diag. reflexivity.
Qed.

(** X3: if some frame has no matrix (an [HTM] object left without one by
    its constructor) and the frames before it are plottable, then
    [graph_frames] raises [AttributeError], whatever follows that frame;
    only the set-up calls have been made, nothing is drawn. *)
Theorem graph_frames_missing_matrix (good rest : list frame) (bad : frame) :
  Forall (fun f => exists m, plottable f m) good ->
  frame_mat bad = raise AttributeError ->
  graph_frames (good ++ bad :: rest) = (setup_calls, raise AttributeError).
Proof.
  intros Hgood Hbad. destruct (Forall_plottable good Hgood) as [ms Hms].
  unfold graph_frames.
  rewrite (collect_stops good rest bad ms (raise AttributeError) Hms).
  - reflexivity.
  - intros st. apply (loop_body_raises _ bad); [apply nth_error_middle | exact Hbad].
  - intros f. reflexivity.
Qed.

Lemma graph_frames_missing_matrix_witness :
  let world := Elementary (HTM.Build "R_00" "I" 0 None (Some identity4)) in
  let broken := Elementary (HTM.Build "T_01" "W" 5 (Some (radians 150)) None) in
  graph_frames ([world] ++ broken :: [world]) = (setup_calls, raise AttributeError).
Proof.
  intros world broken.
  apply (graph_frames_missing_matrix [world] [world] broken); [ | reflexivity].
  constructor; [ | constructor].
  exists identity4. split; [reflexivity | ].
  apply shape_4x4_readable. reflexivity.
Defined.

(** X4: if some frame carries a matrix with fewer than three rows, or
    with one of its first three rows shorter than four entries, and the
    frames before it are plottable, then [graph_frames] ends with
    [IndexError] after the set-up calls, nothing being drawn. *)
Theorem graph_frames_small_matrix
    (good rest : list frame) (bad : frame) (m : matrix) :
  Forall (fun f => exists m, plottable f m) good ->
  frame_mat bad = ret m -> ~ readable m ->
  graph_frames (good ++ bad :: rest) = (setup_calls, ret IndexError).
Proof.
  intros Hgood Hm Hbad. destruct (Forall_plottable good Hgood) as [ms Hms].
  unfold graph_frames.
  rewrite (collect_stops good rest bad ms (ret IndexError) Hms).
  - reflexivity.
  - intros st.
    apply (loop_body_index_error _ bad m); [apply nth_error_middle | assumption ..].
  - intros f. apply plot_bind_index_error.
Qed.

Lemma graph_frames_small_matrix_witness :
  let small := [ [1; 0]; [0; 1] ] in
  let bad := Calculated (CalculatedHTM.Build "T_02" small small small) in
  graph_frames ([] ++ bad :: []) = (setup_calls, ret IndexError).
Proof.
  intros small bad.
  apply (graph_frames_small_matrix [] [] bad small); [constructor | reflexivity | ].
  intros H. destruct (H 0%nat ltac:(lia)) as (row & Hrow & Hlen).
  injection Hrow as <-. cbn in Hlen. lia.
Defined.

(** ** What the drawn segments measure *)

Lemma in_chain_datasets (d : dataset) (ms : list matrix) (p : matrix) :
  In d (chain_datasets p ms) ->
  (exists m k color thickness,
      In m ms /\ (k < 3)%nat /\ d = axis_of m k color thickness)
  \/ ds_color d = "black"%string.
Proof.
  revert p. induction ms as [ | m ms IH]; intros p Hd; [contradiction | ].
  cbn [chain_datasets] in Hd. unfold axes_of in Hd.
  apply in_app_or in Hd as [Hd | Hd].
  - left. destruct Hd as [<- | [<- | [<- | []]]];
      eexists m, _, _, _; (split; [left; reflexivity | split; [ | reflexivity]]); lia.
  - apply in_app_or in Hd as [[<- | []] | Hd]; [right; reflexivity | ].
    destruct (IH m Hd) as [(m' & k & c & t & Hm' & Hk & ->) | Hblack].
    + left. exists m', k, c, t. split; [right; exact Hm' | auto].
    + right. exact Hblack.
Qed.

Lemma in_all_datasets (d : dataset) (ms : list matrix) :
  In d (all_datasets ms) ->
  (exists m k color thickness,
      In m ms /\ (k < 3)%nat /\ d = axis_of m k color thickness)
  \/ ds_color d = "black"%string.
Proof.
  destruct ms as [ | m ms]; [contradiction | ].
  cbn [all_datasets]. unfold axes_of. intros Hd.
  apply in_app_or in Hd as [Hd | Hd].
  - left. destruct Hd as [<- | [<- | [<- | []]]];
      eexists m, _, _, _; (split; [left; reflexivity | split; [ | reflexivity]]); lia.
  - destruct (in_chain_datasets d ms m Hd) as [(m' & k & c & t & Hm' & Hk & ->) | Hblack].
    + left. exists m', k, c, t. split; [right; exact Hm' | auto].
    + right. exact Hblack.
Qed.

(** The squared length of a drawn axis is a diagonal entry of the Gram
    matrix of the rotation block. *)
Lemma squared_length_axis (m : matrix) (k : nat) (color : string) (thickness : R) :
  shape m = Some (4, 4)%nat -> (k < 3)%nat ->
  squared_length (axis_of m k color thickness) = gram (rotation_block m) k k.
Proof.
  intros Hm Hk.
  destruct (shape_4x4 m Hm)
    as (a00 & a01 & a02 & a03 & a10 & a11 & a12 & a13
        & a20 & a21 & a22 & a23 & a30 & a31 & a32 & a33 & ->).
  destruct k as [ | [ | [ | k]]]; try lia;
    unfold squared_length, axis_of, gram, rotation_block, entry;
    cbn [ds_x ds_y ds_z map firstn nth]; ring.
Qed.

(** X5: when every frame carries a homogeneous transform valid up to
    [eps], every axis that [graph_frames] collects (every dataset that is
    not a black link) is a segment whose squared length is within [eps] of
    one: the frames are drawn with unit axes. *)
Theorem drawn_axes_have_unit_length (frames : list frame) (eps : R) :
  Forall (fun f => exists m, frame_mat f = ret m /\ valid_within eps m) frames ->
  exists st,
    collect frames = plot_ret st
    /\ forall d, In d (datasets st) -> ds_color d <> "black"%string ->
         Rabs (squared_length d - 1) <= eps.
Proof.
  intros H.
  assert (Hms : exists ms, Forall2 plottable frames ms /\ Forall (valid_within eps) ms).
  { induction H as [ | f frames (m & Hm & Hv) _ (ms & IH1 & IH2)].
    - exists []. split; constructor.
    - exists (m :: ms). split; constructor; try assumption.
      split; [exact Hm | ]. apply shape_4x4_readable. apply Hv. }
  destruct Hms as (ms & Hplot & Hvalid).
  exists (scene_of ms). split; [apply collect_plottable; exact Hplot | ].
  cbn [scene_of datasets]. intros d Hd Hcolor.
  destruct (in_all_datasets d ms Hd) as [(m & k & c & t & Hm & Hk & ->) | Hblack];
    [ | contradiction].
  rewrite Forall_forall in Hvalid.
  destruct (Hvalid m Hm) as (Hshape & _ & Horth & _).
  rewrite (squared_length_axis m k c t Hshape Hk).
  pose proof (Horth k k Hk Hk) as Hkk.
  unfold kronecker in Hkk. rewrite Nat.eqb_refl in Hkk. exact Hkk.
Qed.

Lemma drawn_axes_have_unit_length_witness :
  let world := Elementary (HTM.Build "R_00" "I" 0 None (Some identity4)) in
  exists st,
    collect [world] = plot_ret st
    /\ forall d, In d (datasets st) -> ds_color d <> "black"%string ->
         Rabs (squared_length d - 1) <= 0.
Proof.
  intros world. apply (drawn_axes_have_unit_length [world] 0).
  constructor; [ | constructor].
  exists identity4. split; [reflexivity | ].
  split; [reflexivity | ]. split; [reflexivity | ]. split.
  - intros i j Hi Hj.
    destruct i as [ | [ | [ | i]]]; try lia;
      destruct j as [ | [ | [ | j]]]; try lia;
      unfold gram, kronecker, rotation_block, identity4, entry;
      cbn [map firstn nth Nat.eqb]; apply Rabs_le; lra.
  - unfold det3, rotation_block, identity4, entry.
    cbn [map firstn nth]. apply Rabs_le. lra.
Defined.

(** ** One step along the chain *)

(** X6: composing a 4x4 pose [P] with a 4x4 joint matrix [J] whose
    bottom row is [0, 0, 0, 1] moves the origin by the joint's translation
    seen through the rotation block of [P], and multiplies the rotation
    blocks: entry [(r, 3)] of the result is [P[r][3]] plus row [r] of the
    block of [P] times the translation of [J], and entry [(r, k)] of its
    block is row [r] of the block of [P] times column [k] of the block of
    [J]. *)
Theorem composition_moves_origin (name : string) (P J : matrix) :
  shape P = Some (4, 4)%nat -> shape J = Some (4, 4)%nat ->
  bottom_row J = [0; 0; 0; 1] ->
  exists c,
    CalculatedHTM.__init__ name P J = ret c
    /\ (forall r, (r < 4)%nat ->
          entry (CalculatedHTM.mat c) r 3
          = entry P r 3
            + (entry P r 0 * entry J 0 3 + entry P r 1 * entry J 1 3
               + entry P r 2 * entry J 2 3))
    /\ (forall r k, (r < 4)%nat -> (k < 3)%nat ->
          entry (CalculatedHTM.mat c) r k
          = entry P r 0 * entry J 0 k + entry P r 1 * entry J 1 k
            + entry P r 2 * entry J 2 k).
Proof.
  intros HP HJ Hrow.
  exists (CalculatedHTM.Build name P J (matrix_product_4x4 P J)).
  split; [apply init_4x4; assumption | ].
  cbn [CalculatedHTM.mat].
  destruct (shape_4x4 P HP)
    as (a00 & a01 & a02 & a03 & a10 & a11 & a12 & a13
        & a20 & a21 & a22 & a23 & a30 & a31 & a32 & a33 & ->).
  destruct (shape_4x4 J HJ)
    as (b00 & b01 & b02 & b03 & b10 & b11 & b12 & b13
        & b20 & b21 & b22 & b23 & b30 & b31 & b32 & b33 & ->).
  unfold bottom_row in Hrow. cbn [nth] in Hrow.
  injection Hrow as -> -> -> ->.
  split.
  - intros r Hr.
    destruct r as [ | [ | [ | [ | r]]]]; try lia;
      unfold matrix_product_4x4, row_by_column, entry;
      cbn [map seq nth]; ring.
  - intros r k Hr Hk.
    destruct r as [ | [ | [ | [ | r]]]]; try lia;
      destruct k as [ | [ | [ | k]]]; try lia;
      unfold matrix_product_4x4, row_by_column, entry;
      cbn [map seq nth]; ring.
Qed.

Lemma composition_moves_origin_witness :
  let J := [ [1; 0; 0; 5]; [0; 1; 0; 0]; [0; 0; 1; 0]; [0; 0; 0; 1] ] in
  exists c,
    CalculatedHTM.__init__ "T_02" J J = ret c
    /\ (forall r, (r < 4)%nat ->
          entry (CalculatedHTM.mat c) r 3
          = entry J r 3
            + (entry J r 0 * entry J 0 3 + entry J r 1 * entry J 1 3
               + entry J r 2 * entry J 2 3))
    /\ (forall r k, (r < 4)%nat -> (k < 3)%nat ->
          entry (CalculatedHTM.mat c) r k
          = entry J r 0 * entry J 0 k + entry J r 1 * entry J 1 k
            + entry J r 2 * entry J 2 k).
Proof.
  intros J. apply (composition_moves_origin "T_02" J J); reflexivity.
Defined.

(** A quadratic form whose matrix is within [e] of the identity, entry by
    entry, changes the squared norm of a vector by at most [3 * e] times
    that squared norm. *)
Lemma rotated_norm
    (a00 a01 a02 a10 a11 a12 a20 a21 a22 t0 t1 t2 e : R) :
  orthonormal_within e [ [a00; a01; a02]; [a10; a11; a12]; [a20; a21; a22] ] ->
  Rabs ((a00 * t0 + a01 * t1 + a02 * t2) * (a00 * t0 + a01 * t1 + a02 * t2)
        + (a10 * t0 + a11 * t1 + a12 * t2) * (a10 * t0 + a11 * t1 + a12 * t2)
        + (a20 * t0 + a21 * t1 + a22 * t2) * (a20 * t0 + a21 * t1 + a22 * t2)
        - (t0 * t0 + t1 * t1 + t2 * t2))
  <= 3 * e * (t0 * t0 + t1 * t1 + t2 * t2).
Proof.
  intros HA.
  pose proof (HA 0%nat 0%nat ltac:(lia) ltac:(lia)) as G00.
  pose proof (HA 0%nat 1%nat ltac:(lia) ltac:(lia)) as G01.
  pose proof (HA 0%nat 2%nat ltac:(lia) ltac:(lia)) as G02.
  pose proof (HA 1%nat 0%nat ltac:(lia) ltac:(lia)) as G10.
  pose proof (HA 1%nat 1%nat ltac:(lia) ltac:(lia)) as G11.
  pose proof (HA 1%nat 2%nat ltac:(lia) ltac:(lia)) as G12.
  pose proof (HA 2%nat 0%nat ltac:(lia) ltac:(lia)) as G20.
  pose proof (HA 2%nat 1%nat ltac:(lia) ltac:(lia)) as G21.
  pose proof (HA 2%nat 2%nat ltac:(lia) ltac:(lia)) as G22.
  unfold gram, kronecker, entry in *. cbn [nth Nat.eqb] in *.
  pose proof (term_bound t0 t0 _ e G00) as T00.
  pose proof (term_bound t0 t1 _ e G01) as T01.
  pose proof (term_bound t0 t2 _ e G02) as T02.
  pose proof (term_bound t1 t0 _ e G10) as T10.
  pose proof (term_bound t1 t1 _ e G11) as T11.
  pose proof (term_bound t1 t2 _ e G12) as T12.
  pose proof (term_bound t2 t0 _ e G20) as T20.
  pose proof (term_bound t2 t1 _ e G21) as T21.
  pose proof (term_bound t2 t2 _ e G22) as T22.
  apply Rabs_le. split; lra.
Qed.

(** X7: when the pose [P] is a homogeneous transform valid up to [e] and
    [J] is a 4x4 joint matrix with bottom row [0, 0, 0, 1], the black
    segment drawn from the origin of [P] to the origin of the composed
    pose has the squared length of the joint's translation column, up to
    [3 * e] times that squared length (exactly, when [P] is exactly
    valid). *)
Theorem link_has_joint_length (name : string) (P J : matrix) (e : R) :
  valid_within e P -> shape J = Some (4, 4)%nat -> bottom_row J = [0; 0; 0; 1] ->
  exists c,
    CalculatedHTM.__init__ name P J = ret c
    /\ Rabs (squared_length (link_of P (CalculatedHTM.mat c))
             - squared_norm (translation_column J))
       <= 3 * e * squared_norm (translation_column J).
Proof.
  intros (HP & _ & Horth & _) HJ Hrow.
  exists (CalculatedHTM.Build name P J (matrix_product_4x4 P J)).
  split; [apply init_4x4; assumption | ].
  cbn [CalculatedHTM.mat].
  destruct (shape_4x4 P HP)
    as (a00 & a01 & a02 & a03 & a10 & a11 & a12 & a13
        & a20 & a21 & a22 & a23 & a30 & a31 & a32 & a33 & ->).
  destruct (shape_4x4 J HJ)
    as (b00 & b01 & b02 & b03 & b10 & b11 & b12 & b13
        & b20 & b21 & b22 & b23 & b30 & b31 & b32 & b33 & ->).
  unfold bottom_row in Hrow. cbn [nth] in Hrow.
  injection Hrow as -> -> -> ->.
  unfold rotation_block in Horth. cbn [map firstn] in Horth.
  pose proof (rotated_norm a00 a01 a02 a10 a11 a12 a20 a21 a22 b03 b13 b23 e Horth)
    as Hnorm.
  unfold squared_length, link_of, translation_column, column,
    matrix_product_4x4, row_by_column, entry.
  cbn [ds_x ds_y ds_z map seq firstn nth squared_norm].
  match goal with
  | |- Rabs ?lhs <= ?bound =>
      match type of Hnorm with
      | Rabs ?lhs' <= ?bound' =>
          replace lhs with lhs' by ring; replace bound with bound' by ring;
          exact Hnorm
      end
  end.
Qed.

Lemma link_has_joint_length_witness :
  let J := [ [1; 0; 0; 5]; [0; 1; 0; 0]; [0; 0; 1; 0]; [0; 0; 0; 1] ] in
  exists c,
    CalculatedHTM.__init__ "T_01" identity4 J = ret c
    /\ Rabs (squared_length (link_of identity4 (CalculatedHTM.mat c))
             - squared_norm (translation_column J))
       <= 3 * 0 * squared_norm (translation_column J).
Proof.
  intros J. apply (link_has_joint_length "T_01" identity4 J 0); try reflexivity.
  split; [reflexivity | ]. split; [reflexivity | ]. split.
  - intros i j Hi Hj.
    destruct i as [ | [ | [ | i]]]; try lia;
      destruct j as [ | [ | [ | j]]]; try lia;
      unfold gram, kronecker, rotation_block, identity4, entry;
      cbn [map firstn nth Nat.eqb]; apply Rabs_le; lra.
  - unfold det3, rotation_block, identity4, entry.
    cbn [map firstn nth]. apply Rabs_le. lra.
Defined.

(** X8: the translation column of a matrix built from a valid joint
    specification with link length [L] has squared length [L * L] up to
    [L * L] times the tolerance (exactly [L * L] for the X and identity
    variants): a link is as long as its segment. *)
Theorem elementary_translation_length
    (name code : string) (L : R) (theta : option R) :
  valid_spec code theta = true ->
  exists self m,
    HTM.__init__ name code L theta = ret self
    /\ HTM.mat self = Some m
    /\ Rabs (squared_norm (translation_column m) - L * L) <= L * L * tolerance
    /\ (upper code = "X"%string \/ upper code = "I"%string ->
        squared_norm (translation_column m) = L * L).
Proof.
  intros Hok.
  assert (Hsq : 0 <= L * L) by nra.
  assert (Hflat : Rabs (L * L + (0 * 0 + (0 * 0 + 0)) - L * L) <= L * L * tolerance).
  { replace (L * L + (0 * 0 + (0 * 0 + 0)) - L * L) with 0 by ring.
    rewrite Rabs_R0. pose proof tolerance_nonneg. nra. }
  assert (Hround : forall t,
            Rabs (L * L * (round5 (cos t) * round5 (cos t)
                           + round5 (sin t) * round5 (sin t) - 1))
            <= L * L * tolerance).
  { intros t. rewrite Rabs_mult, (Rabs_pos_eq (L * L)) by exact Hsq.
    apply Rmult_le_compat_l; [exact Hsq | apply rounded_unit_circle]. }
  destruct (valid_spec_cases code theta Hok)
    as [(th & -> & [H | [H | H]]) | [-> H]].
  - eexists. eexists. split; [apply init_X; exact H | ].
    split; [reflexivity | ].
    unfold translation_column, column. cbn [map firstn nth squared_norm].
    split; [exact Hflat | intros _; ring].
  - eexists. eexists. split; [apply init_Y; exact H | ].
    split; [reflexivity | ].
    unfold translation_column, column. cbn [map firstn nth squared_norm].
    split; [ | intros [Hx | Hi]; rewrite H in *; discriminate].
    pose proof (Hround (radians th)) as Hr.
    match goal with
    | |- Rabs ?lhs <= _ =>
        match type of Hr with
        | Rabs ?lhs' <= _ => replace lhs with lhs' by ring; exact Hr
        end
    end.
  - eexists. eexists. split; [apply init_Z; exact H | ].
    split; [reflexivity | ].
    unfold translation_column, column. cbn [map firstn nth squared_norm].
    split; [ | intros [Hx | Hi]; rewrite H in *; discriminate].
    pose proof (Hround (radians th)) as Hr.
    match goal with
    | |- Rabs ?lhs <= _ =>
        match type of Hr with
        | Rabs ?lhs' <= _ => replace lhs with lhs' by ring; exact Hr
        end
    end.
  - eexists. eexists. split; [apply init_I; exact H | ].
    split; [reflexivity | ].
    unfold translation_column, column. cbn [map firstn nth squared_norm].
    split; [exact Hflat | intros _; ring].
Qed.

Lemma elementary_translation_length_witness :
  exists self m,
    HTM.__init__ "T_12" "y" 4 (Some 100) = ret self
    /\ HTM.mat self = Some m
    /\ Rabs (squared_norm (translation_column m) - 4 * 4) <= 4 * 4 * tolerance
    /\ (upper "y" = "X"%string \/ upper "y" = "I"%string ->
        squared_norm (translation_column m) = 4 * 4).
Proof.
  apply (elementary_translation_length "T_12" "y" 4 (Some 100)). reflexivity.
Defined.

(** ** More on the constructor *)

Lemma upper_char_idempotent (c : ascii) : upper_char (upper_char c) = upper_char c.
Proof. destruct c as [[] [] [] [] [] [] [] []]; reflexivity. Qed.

Lemma upper_idempotent (s : string) : upper (upper s) = upper s.
Proof.
  induction s as [ | c s IH]; [reflexivity | ].
  cbn [upper]. rewrite upper_char_idempotent, IH. reflexivity.
Qed.

(** X10: the constructor looks at the axis code only through its
    upper-case form: for every name, code, length and angle (present or
    not, valid or not) it behaves on the code as it does on the code
    written in capitals: same object or exception, same printed text. *)
Theorem constructor_ignores_case
    (name code : string) (L : R) (theta : option R) :
  HTM.__init__ name (upper code) L theta = HTM.__init__ name code L theta.
Proof.
  unfold HTM.__init__. rewrite upper_idempotent. reflexivity.
Qed.

Lemma radians_opp (th : R) : radians (- th) = - radians th.
Proof. unfold radians. field. Qed.

(** X11: turning by the opposite angle gives the transposed (inverse)
    rotation block: for every rotation code, the rotation block built for
    [- th] is the transpose of the one built for [th]. *)
Theorem opposite_angle_transposes (name code : string) (L th : R) :
  rotation_code code = true ->
  exists self self' m m',
    HTM.__init__ name code L (Some th) = ret self
    /\ HTM.__init__ name code L (Some (- th)) = ret self'
    /\ HTM.mat self = Some m /\ HTM.mat self' = Some m'
    /\ rotation_block m' = transpose3 (rotation_block m).
Proof.
  intros Hrot.
  destruct (valid_spec_cases code (Some th) Hrot)
    as [(th0 & [= <-] & [H | [H | H]]) | [[=] _]].
  - do 4 eexists. split; [apply init_X; exact H | ].
    split; [apply init_X; exact H | ]. split; [reflexivity | ].
    split; [reflexivity | ].
    rewrite radians_opp, cos_neg, sin_neg, Ropp_involutive.
    reflexivity.
  - do 4 eexists. split; [apply init_Y; exact H | ].
    split; [apply init_Y; exact H | ]. split; [reflexivity | ].
    split; [reflexivity | ].
    rewrite radians_opp, cos_neg, sin_neg, Ropp_involutive.
    reflexivity.
  - do 4 eexists. split; [apply init_Z; exact H | ].
    split; [apply init_Z; exact H | ]. split; [reflexivity | ].
    split; [reflexivity | ].
    rewrite radians_opp, cos_neg, sin_neg, Ropp_involutive.
    reflexivity.
Qed.

Lemma opposite_angle_transposes_witness :
  exists self self' m m',
    HTM.__init__ "T_23" "z" 3 (Some 90) = ret self
    /\ HTM.__init__ "T_23" "z" 3 (Some (- 90)) = ret self'
    /\ HTM.mat self = Some m /\ HTM.mat self' = Some m'
    /\ rotation_block m' = transpose3 (rotation_block m).
Proof.
  apply (opposite_angle_transposes "T_23" "z" 3 90). reflexivity.
Defined.

(** X12: at angle zero the three rotation variants build the matrix of
    the identity variant: identity rotation block, translation
    [L, 0, 0]. *)
Theorem zero_angle_is_prismatic (name code : string) (L : R) :
  rotation_code code = true ->
  HTM.__init__ name code L (Some 0)
  = ret (HTM.Build name (upper code) L (Some (radians 0))
           (Some [ [1; 0; 0; L]; [0; 1; 0; 0]; [0; 0; 1; 0]; [0; 0; 0; 1] ])).
Proof.
  intros Hrot.
  assert (Hc : round5 (cos (radians 0)) = 1)
    by (rewrite radians_0, cos_0; apply round5_1).
  assert (Hs : round5 (sin (radians 0)) = 0)
    by (rewrite radians_0, sin_0; apply round5_0).
  assert (Hn : round5 (- sin (radians 0)) = 0)
    by (rewrite round5_opp, Hs; ring).
  destruct (valid_spec_cases code (Some 0) Hrot)
    as [(th0 & [= <-] & [H | [H | H]]) | [[=] _]].
  - rewrite (init_X name code L 0 H), Hc, Hs, Hn, H. reflexivity.
  - rewrite (init_Y name code L 0 H), Hc, Hs, Hn, H.
    repeat f_equal; ring.
  - rewrite (init_Z name code L 0 H), Hc, Hs, Hn, H.
    repeat f_equal; ring.
Qed.

Lemma zero_angle_is_prismatic_witness :
  HTM.__init__ "T_12" "y" 4 (Some 0)
  = ret (HTM.Build "T_12" (upper "y") 4 (Some (radians 0))
           (Some [ [1; 0; 0; 4]; [0; 1; 0; 0]; [0; 0; 1; 0]; [0; 0; 0; 1] ])).
Proof.
  apply (zero_angle_is_prismatic "T_12" "y" 4). reflexivity.
Defined.

(** ** Listing the frames *)

Lemma append_assoc (s t u : string) : ((s ++ t) ++ u = s ++ t ++ u)%string.
Proof. induction s as [ | c s IH]; [reflexivity | ]. cbn. rewrite IH. reflexivity. Qed.

Lemma append_empty_r (s : string) : (s ++ "" = s)%string.
Proof. induction s as [ | c s IH]; [reflexivity | ]. cbn. rewrite IH. reflexivity. Qed.

Lemma length_append (s t : string) :
  String.length (s ++ t) = (String.length s + String.length t)%nat.
Proof. induction s as [ | c s IH]; [reflexivity | ]. cbn. rewrite IH. reflexivity. Qed.

Lemma substring_prefix (s t : string) :
  substring 0 (String.length s) (s ++ t) = s.
Proof.
  induction s as [ | c s IH].
  - destruct t; reflexivity.
  - cbn. rewrite IH. reflexivity.
Qed.

Lemma drop_last_two_separator (s : string) : drop_last_two (s ++ ", ") = s.
Proof.
  unfold drop_last_two. rewrite length_append. cbn [String.length].
  replace (String.length s + 2 - 2)%nat with (String.length s) by lia.
  apply substring_prefix.
Qed.

(** The accumulation of [printFrameList]: every name followed by the
    separator. *)
Lemma fold_names (frameList : list frame) (acc : string) :
  fold_left (fun acc i => acc ++ frame_objName i ++ ", ")%string frameList acc
  = (acc ++ String.concat "" (map (fun i => frame_objName i ++ ", ") frameList))%string.
Proof.
  revert acc. induction frameList as [ | f rest IH]; intros acc.
  - cbn. rewrite append_empty_r. reflexivity.
  - cbn [fold_left map]. rewrite IH.
    destruct rest as [ | g rest].
    + cbn. rewrite append_empty_r. reflexivity.
    + cbn [map String.concat]. rewrite !append_assoc. reflexivity.
Qed.

Lemma names_with_separator (frameList : list frame) :
  frameList <> [] ->
  String.concat "" (map (fun i => frame_objName i ++ ", ")%string frameList)
  = (String.concat ", " (map frame_objName frameList) ++ ", ")%string.
Proof.
  induction frameList as [ | f rest IH]; intros Hne; [contradiction | ].
  destruct rest as [ | g rest]; [reflexivity | ].
  cbn [map String.concat] in *. rewrite IH by discriminate.
  cbn [append]. rewrite !append_assoc. reflexivity.
Qed.

(** X13: [printFrameList] never raises and never reads a matrix (frames
    left without one are listed like the others); it prints one line.
    For a non-empty list the line is [Frame List: ] followed by the names
    separated by a comma and a space, and a newline; for the empty list
    the two characters cut from the end are the colon and the space of
    the heading, and the line is [Frame List] and a newline. *)
Theorem printFrameList_line (frameList : list frame) :
  (frameList <> [] ->
   printFrameList frameList
   = Run (Returned tt)
         [ ("Frame List: " ++ String.concat ", " (map frame_objName frameList)
            ++ String "010" "")%string ])
  /\ printFrameList []
     = Run (Returned tt) [ ("Frame List" ++ String "010" "")%string ].
Proof.
  split; [ | reflexivity].
  intros Hne. unfold printFrameList, print.
  rewrite fold_names, (names_with_separator frameList Hne).
  rewrite <- append_assoc, drop_last_two_separator, append_assoc.
  reflexivity.
Qed.

Lemma printFrameList_line_witness :
  let broken := Elementary (HTM.Build "T_01" "W" 5 (Some (radians 150)) None) in
  let world := Elementary (HTM.Build "R_00" "I" 0 None (Some identity4)) in
  printFrameList [world; broken]
  = Run (Returned tt)
        [ ("Frame List: " ++ String.concat ", " (map frame_objName [world; broken])
           ++ String "010" "")%string ].
Proof.
  intros broken world.
  apply (proj1 (printFrameList_line [world; broken])). discriminate.
Defined.

(** ** Printing a matrix *)

Section PrintMat.

Variable str_row : list R -> string.
Variable str_array : matrix -> string.

(** X14: constructing an [HTM] object and printing its matrix.  With a
    valid joint specification the call returns after three prints: the
    header with the object's name, then the renderings of the four rows of
    the object's own matrix, first row first, separated by newlines, then
    a blank line.  With an unknown code, or the identity code given an
    angle, the constructor's diagnostic is followed by the header and then
    the call raises [AttributeError]: the header is printed before the
    missing matrix is noticed. *)
Theorem print_mat_after_construction
    (name code : string) (L : R) (theta : option R) :
  (valid_spec code theta = true ->
   exists (self : HTM.t) (r0 r1 r2 r3 : list R),
     HTM.__init__ name code L theta = ret self
     /\ HTM.mat self = Some [r0; r1; r2; r3]
     /\ (self <- HTM.__init__ name code L theta ;; HTM_print_mat str_row self)%py
        = Run (Returned tt)
              [ ("Printing: " ++ name)%string;
                (str_row r0 ++ String "010" "" ++ str_row r1 ++ String "010" ""
                 ++ str_row r2 ++ String "010" "" ++ str_row r3)%string;
                String "010" "" ])
  /\ (rotation_code code = false ->
      identity_code code = false \/ theta <> None ->
      (self <- HTM.__init__ name code L theta ;; HTM_print_mat str_row self)%py
      = Run (Raised AttributeError)
            [ diagnostic name; ("Printing: " ++ name)%string ]).
Proof.
  split.
  - intros Hok.
    destruct (valid_spec_cases code theta Hok)
      as [(th & -> & [H | [H | H]]) | [-> H]];
      do 5 eexists;
      [ rewrite (init_X name code L th H)
      | rewrite (init_Y name code L th H)
      | rewrite (init_Z name code L th H)
      | rewrite (init_I name code L H) ];
      (split; [reflexivity | ]); (split; [reflexivity | ]);
      rewrite bind_ret; reflexivity.
  - intros Hrot Hid.
    rewrite (init_fall_through name code L theta Hrot Hid). reflexivity.
Qed.

(** X15: constructing a [CalculatedHTM] object and printing its matrix.
    On aligned operands the call returns after three prints: the header,
    the rendering of the object's own matrix, which is the product of the
    operands, and a blank line; on operands that do not align the
    constructor raises [ValueError] and nothing at all is printed. *)
Theorem print_mat_after_composition
    (name : string) (r1 r2 : matrix) (n k k' w : nat) :
  shape r1 = Some (n, k) -> shape r2 = Some (k', w) ->
  (k = k' ->
   exists self,
     CalculatedHTM.__init__ name r1 r2 = ret self
     /\ shape (CalculatedHTM.mat self) = Some (n, w)
     /\ (forall i j, (i < n)%nat -> (j < w)%nat ->
           entry (CalculatedHTM.mat self) i j = row_times_column r1 r2 k i j)
     /\ (self <- CalculatedHTM.__init__ name r1 r2 ;;
         CalculatedHTM_print_mat str_array self)%py
        = Run (Returned tt)
              [ ("Printing: " ++ name)%string;
                str_array (CalculatedHTM.mat self);
                String "010" "" ])
  /\ (k <> k' ->
      (self <- CalculatedHTM.__init__ name r1 r2 ;;
       CalculatedHTM_print_mat str_array self)%py
      = Run (Raised ValueError) []).
Proof.
  intros H1 H2. split; intros Hk.
  - subst k'. destruct (init_aligned name r1 r2 n k w H1 H2) as [Hinit Hshape].
    eexists. split; [exact Hinit | ]. split; [exact Hshape | ].
    split.
    + intros i j Hi Hj. apply (np_dot_entry r1 r2 n k w i j H1 H2 Hi Hj).
    + rewrite Hinit, bind_ret. reflexivity.
  - unfold CalculatedHTM.__init__, np_dot. rewrite H1, H2.
    apply Nat.eqb_neq in Hk. rewrite Hk. reflexivity.
Qed.

End PrintMat.

Lemma print_mat_after_construction_witness :
  let sign := fun x : R => if Rle_dec 0 x then "+"%string else "-"%string in
  let render := fun row : list R => String.concat "," (map sign row) in
  (exists (self : HTM.t) (r0 r1 r2 r3 : list R),
      HTM.__init__ "T_01" "z" 5 (Some 150) = ret self
      /\ HTM.mat self = Some [r0; r1; r2; r3]
      /\ (self <- HTM.__init__ "T_01" "z" 5 (Some 150) ;;
          HTM_print_mat render self)%py
         = Run (Returned tt)
               [ ("Printing: " ++ "T_01")%string;
                 (render r0 ++ String "010" "" ++ render r1 ++ String "010" ""
                  ++ render r2 ++ String "010" "" ++ render r3)%string;
                 String "010" "" ])
  /\ (self <- HTM.__init__ "T_01" "w" 5 (Some 150) ;;
      HTM_print_mat render self)%py
     = Run (Raised AttributeError)
           [ diagnostic "T_01"; ("Printing: " ++ "T_01")%string ].
Proof.
  intros sign render. split.
  - apply (proj1 (print_mat_after_construction render "T_01" "z" 5 (Some 150))).
    reflexivity.
  - apply (proj2 (print_mat_after_construction render "T_01" "w" 5 (Some 150))).
    + reflexivity.
    + left. reflexivity.
Defined.

Lemma print_mat_after_composition_witness :
  let sign := fun x : R => if Rle_dec 0 x then "+"%string else "-"%string in
  let render := fun m : matrix =>
                  String.concat ";" (map (fun row => String.concat "," (map sign row)) m) in
  let a := [ [1; 2; 3]; [4; 5; 6] ] in
  let b := [ [1; 0]; [0; 1]; [1; 1] ] in
  let small := [ [1; 0; 0]; [0; 1; 0]; [0; 0; 1] ] in
  (exists self,
      CalculatedHTM.__init__ "T_02" a b = ret self
      /\ shape (CalculatedHTM.mat self) = Some (2, 2)%nat
      /\ (forall i j, (i < 2)%nat -> (j < 2)%nat ->
            entry (CalculatedHTM.mat self) i j = row_times_column a b 3 i j)
      /\ (self <- CalculatedHTM.__init__ "T_02" a b ;;
          CalculatedHTM_print_mat render self)%py
         = Run (Returned tt)
               [ ("Printing: " ++ "T_02")%string;
                 render (CalculatedHTM.mat self);
                 String "010" "" ])
  /\ (self <- CalculatedHTM.__init__ "T_02" identity4 small ;;
      CalculatedHTM_print_mat render self)%py
     = Run (Raised ValueError) [].
Proof.
  intros sign render a b small. split.
  - apply (proj1 (print_mat_after_composition render "T_02" a b 2 3 3 2
                    eq_refl eq_refl)).
    reflexivity.
  - apply (proj2 (print_mat_after_composition render "T_02" identity4 small
                    4 4 3 3 eq_refl eq_refl)).
    discriminate.
Defined.

(** ** The whole run *)

(** X16: the program runs to its end without raising: it prints the one
    line listing the six frames, then plots them, making the five set-up
    calls, a line and a scatter for each of the 23 datasets (three axes
    for each of the six frames, five links) and the five closing calls,
    56 calls in all; the first of the six plotted matrices is the
    identity. *)
Theorem program_run :
  exists ms,
    List.length ms = 6%nat
    /\ nth 0 ms [] = identity4
    /\ main_and_plot
       = (setup_calls ++ draw_scene (scene_of ms) ++ closing_calls,
          Run (Returned (Found tt))
              [ ("Frame List: R_00, T_01, T_02, T_03, T_04, T_05"
                 ++ String "010" "")%string ])
    /\ List.length (datasets (scene_of ms)) = 23%nat
    /\ List.length (fst main_and_plot) = 56%nat.
Proof.
  destruct main_run
    as (R_00 & T_01 & T_12 & T_23 & T_34 & T_45 & J1 & J2 & J3 & J4 & J5
        & I0 & I1 & I2 & I3 & I4 & I5 & M0 & M1 & M2 & M3 & M4 & M5
        & S1 & S2 & S3 & S4 & S5
        & E1 & E12 & E2 & E22 & E3 & EP3 & E4 & EP4 & Hmain).
  cbv zeta in Hmain. cbn [CalculatedHTM.mat] in Hmain.
  set (P2 := matrix_product_4x4 J1 J2) in *.
  set (P3 := matrix_product_4x4 P2 J3) in *.
  set (P4 := matrix_product_4x4 P3 J4) in *.
  set (P5 := matrix_product_4x4 P4 J5) in *.
  exists [identity4; J1; P2; P3; P4; P5].
  assert (Hplot : main_and_plot
            = (setup_calls
               ++ draw_scene (scene_of [identity4; J1; P2; P3; P4; P5])
               ++ closing_calls,
               Run (Returned (Found tt))
                   [ ("Frame List: R_00, T_01, T_02, T_03, T_04, T_05"
                      ++ String "010" "")%string ])).
  { unfold main_and_plot. rewrite Hmain. cbn [result printed].
    rewrite (graph_frames_scene _ [identity4; J1; P2; P3; P4; P5]).
    - reflexivity.
    - repeat constructor; cbn [frame_mat CalculatedHTM.mat];
        try reflexivity;
        try (unfold HTM.get_mat; rewrite M0 || rewrite M1; reflexivity);
        apply shape_4x4_readable;
        first [ reflexivity | assumption | apply shape_product_4x4 ]. }
  split; [reflexivity | ]. split; [reflexivity | ]. split; [exact Hplot | ].
  split.
  - cbn [scene_of datasets]. rewrite length_all_datasets. reflexivity.
  - rewrite Hplot. cbn [fst]. rewrite !length_app, length_draw_scene.
    cbn [scene_of datasets]. rewrite length_all_datasets. reflexivity.
Qed.
